(** * OPT Observatory data loader: a shallow embedding of [data_loader.py]

    The module is a facade over pandas: it resolves a year to a file of the
    data directory, hands the file to [pd.read_csv] and post-processes the
    table.  The embedding keeps the facade as it is written (file
    resolution, argument forwarding, the sequential and the parallel loop,
    the generator, the printed progress lines, the exceptions) and takes the
    pandas calls as an interface, [Pandas], whose documented contracts are
    separate, named propositions.  [MiniPandas] is a small executable
    instance of the interface on which every contract is proved;
    [InferPandas] adds to it the inference of column types, which a
    chunked read does chunk by chunk. *)

From Stdlib Require Import ZArith Ascii String List Lia DecimalString.
From Stdlib Require DecimalPos.
From stdpp Require Import base option list strings gmap sorting.

Open Scope string_scope.
Open Scope Z_scope.

(* ===================================================================== *)
(** ** Python values the module formats or parses *)
(* ===================================================================== *)

Module Py.

(** [str(i)] for an [int]. *)
Definition str_int (z : Z) : string := NilEmpty.string_of_int (Z.to_int z).

(** Groups of three digits from the right, as the [,] format option
    does; the argument is the reversed digit list. *)
Fixpoint group3 (fuel : nat) (rev_digits : list ascii) : list ascii :=
  match fuel, rev_digits with
  | S fuel', a :: b :: c :: ((_ :: _) as rest) =>
      a :: b :: c :: ","%char :: group3 fuel' rest
  | _, l => l
  end.

(** [f"{z:,}"] for an [int]. *)
Definition fmt_commas (z : Z) : string :=
  let ds := list_ascii_of_string (str_int (Z.abs z)) in
  (if z <? 0 then "-" else EmptyString)
  ++ string_of_list_ascii (rev (group3 (length ds) (rev ds))).

(** [repr] of a list of ints, as [f"{self.available_years}"] prints it. *)
Fixpoint join (sep : string) (l : list string) : string :=
  match l with
  | [] => EmptyString
  | [x] => x
  | x :: rest => x ++ sep ++ join sep rest
  end.

Definition repr_int_list (l : list Z) : string :=
  "[" ++ join ", " (map str_int l) ++ "]".

(** [s.split(sep)] for a one-character separator, on the character list. *)
Fixpoint split_chars (sep : ascii) (cur : list ascii) (s : list ascii)
  : list (list ascii) :=
  match s with
  | [] => [rev cur]
  | c :: rest =>
      if Ascii.eqb c sep then rev cur :: split_chars sep [] rest
      else split_chars sep (c :: cur) rest
  end.

Definition split (sep : ascii) (s : string) : list string :=
  map string_of_list_ascii (split_chars sep [] (list_ascii_of_string s)).

(** The white space [int()] skips around the number in an ASCII text:
    tab, line feed, vertical tab, form feed, carriage return, space. *)
Definition is_space (c : ascii) : bool :=
  let n := nat_of_ascii c in
  ((9 <=? n) && (n <=? 13) || (n =? 32))%nat.

Definition is_ascii (s : list ascii) : bool :=
  forallb (λ c, (nat_of_ascii c <? 128)%nat) s.

Definition digit_val (c : ascii) : option Z :=
  let n := nat_of_ascii c in
  if ((48 <=? n) && (n <=? 57))%nat then Some (Z.of_nat n - 48) else None.

Fixpoint digits_val (acc : Z) (s : list ascii) : option Z :=
  match s with
  | [] => Some acc
  | c :: rest =>
      match digit_val c with
      | Some d => digits_val (10 * acc + d) rest
      | None => None
      end
  end.

Fixpoint lstrip (s : list ascii) : list ascii :=
  match s with
  | c :: rest => if is_space c then lstrip rest else s
  | [] => []
  end.

Definition strip (s : list ascii) : list ascii :=
  rev (lstrip (rev (lstrip s))).

(** [int(s)] in base 10 on an ASCII text that holds no underscore:
    optional surrounding white space, an optional sign, at least one
    digit.  [None] stands for the [ValueError].  The limit on the number
    of digits (4300 unless configured otherwise) is left out: no file
    name is that long. *)
Definition int_of_ascii (s : list ascii) : option Z :=
  match strip s with
  | [] => None
  | c :: rest =>
      if Ascii.eqb c "-"%char then
        match rest with [] => None | _ => Z.opp <$> digits_val 0 rest end
      else if Ascii.eqb c "+"%char then
        match rest with [] => None | _ => digits_val 0 rest end
      else digits_val 0 (c :: rest)
  end.

(** [int(s)] on a text that holds no underscore.  On a text with a
    character outside ASCII, [int()] first maps every Unicode decimal
    digit and white space to its ASCII counterpart; that table is not
    spelled out here, and [non_ascii] stands for what [int()] returns on
    such a text. *)
Definition int_of_str (non_ascii : string -> option Z) (s : string)
  : option Z :=
  if is_ascii (list_ascii_of_string s)
  then int_of_ascii (list_ascii_of_string s)
  else non_ascii s.

(** [l[-1]]: the last element, [None] standing for the [IndexError]. *)
Definition last_item {A} (l : list A) : option A := last l.

End Py.

(* ===================================================================== *)
(** ** Exceptions, and computations that print and may raise *)
(* ===================================================================== *)

(** The exception classes the module raises itself, the
    [UnicodeDecodeError] of reading a file as text, and [LibraryError]
    for the other subclasses of [Exception] that pandas and pickle
    raise, named by class. *)
Inductive exc_class :=
  | FileNotFoundError
  | ValueError
  | IndexError
  | UnicodeDecodeError
  | LibraryError (name : string).

Record exn := Exn { exc_type : exc_class; exc_msg : string }.

Inductive result (A : Type) :=
  | Ok (a : A)
  | Raise (e : exn).
Arguments Ok {A} a.
Arguments Raise {A} e.

Definition is_ok {A} (r : result A) : bool :=
  match r with Ok _ => true | Raise _ => false end.

Definition result_map {A B} (f : A -> B) (r : result A) : result B :=
  match r with Ok a => Ok (f a) | Raise e => Raise e end.

Definition result_bind {A B} (r : result A) (f : A -> result B) : result B :=
  match r with Ok a => f a | Raise e => Raise e end.

(** A computation: the lines it printed, in order, and how it ended. *)
Definition Comp (A : Type) : Type := (list string * result A)%type.

Definition ret {A} (a : A) : Comp A := ([], Ok a).
Definition raise {A} (e : exn) : Comp A := ([], Raise e).
Definition print (line : string) : Comp unit := ([line], Ok tt).
Definition lift {A} (r : result A) : Comp A := ([], r).

Definition bind {A B} (c : Comp A) (f : A -> Comp B) : Comp B :=
  match c with
  | (out, Ok a) => let '(out', r) := f a in ((out ++ out')%list, r)
  | (out, Raise e) => (out, Raise e)
  end.

Notation "x <- c ;; k" := (bind c (fun x => k))
  (at level 100, c at next level, right associativity).
Notation "c ;;; k" := (bind c (fun _ => k))
  (at level 100, right associativity).

Definition stdout {A} (c : Comp A) : list string := fst c.
Definition outcome {A} (c : Comp A) : result A := snd c.

(** The loop [for x in xs: ys.append(f(x))]. *)
Fixpoint for_each {A B} (f : A -> Comp B) (xs : list A) : Comp (list B) :=
  match xs with
  | [] => ret []
  | x :: rest =>
      y <- f x ;;
      ys <- for_each f rest ;;
      ret (y :: ys)
  end.

(* ===================================================================== *)
(** ** Tables and the pandas interface *)
(* ===================================================================== *)

Inductive cell :=
  | CInt (z : Z)
  | CStr (s : string)
  | CNaN.

Definition row : Type := list cell.

(** A [DataFrame]: the column names and the rows in order, each row with
    its index label. *)
Record DataFrame := mkDataFrame {
  df_columns : list string;
  df_rows : list (Z * row)
}.

(** [len(df)] *)
Definition df_len (df : DataFrame) : nat := length (df_rows df).

Definition df_labels (df : DataFrame) : list Z := map fst (df_rows df).
Definition df_values (df : DataFrame) : list row := map snd (df_rows df).

(** [dtype=]: column name to type name. *)
Definition dtype_hints : Type := list (string * string).

(** The pandas calls of the module.  The [read_csv] calls that load rows
    pass [low_memory=False]; the header-only call of [get_column_names]
    leaves the flag at its default, which reads the same zero rows.  The
    flag is not an argument here.
    - [read_csv content usecols nrows dtype]: the whole-file read;
    - [read_csv_chunked content usecols chunksize dtype]: what iterating
      [read_csv(..., chunksize=k)] produces: an error on opening, or the
      chunks in order and the exception that ends the iteration early,
      if any;
    - [concat_ignore_index dfs]: [pd.concat(dfs, ignore_index=True)];
    - [df_sample df n seed]: [df.sample(n=n, random_state=seed)]. *)
Class Pandas := {
  read_csv :
    string -> option (list string) -> option Z -> option dtype_hints ->
    result DataFrame;
  read_csv_chunked :
    string -> option (list string) -> Z -> option dtype_hints ->
    result (list DataFrame * option exn);
  concat_ignore_index : list DataFrame -> result DataFrame;
  df_sample : DataFrame -> Z -> Z -> result DataFrame
}.

(** Fresh labels [0, 1, ...] on a list of rows: [ignore_index=True]. *)
Definition relabel (rows : list row) : list (Z * row) :=
  zip (map Z.of_nat (seq 0 (length rows))) rows.

(** [df[mask]] for the mask of a row predicate: the rows for which the
    predicate holds, labels kept.  This is the shape of filter function
    the module's documentation gives. *)
Definition row_filter (p : Z * row -> bool) (df : DataFrame)
  : result DataFrame :=
  Ok (mkDataFrame (df_columns df) (List.filter p (df_rows df))).

(* ===================================================================== *)
(** ** The file system and the process environment *)
(* ===================================================================== *)

(** The encoding [open(path)] decodes a text file with when none is
    given: the preferred encoding of the locale. *)
Inductive text_encoding :=
  | EncUTF8
  | EncASCII
  | EncLatin1
  | EncCP1252.

(** Well-formed UTF-8, as the strict decoder accepts it: [need]
    continuation bytes are still due, the next of them within
    [lo, hi]. *)
Fixpoint utf8_valid (need lo hi : nat) (bytes : list ascii) : bool :=
  match bytes with
  | [] => (need =? 0)%nat
  | b :: rest =>
      let n := nat_of_ascii b in
      match need with
      | S need' =>
          ((lo <=? n) && (n <=? hi))%nat && utf8_valid need' 128 191 rest
      | O =>
          if (n <? 128)%nat then utf8_valid 0 0 0 rest
          else if ((194 <=? n) && (n <=? 223))%nat
          then utf8_valid 1 128 191 rest
          else if (n =? 224)%nat then utf8_valid 2 160 191 rest
          else if ((225 <=? n) && (n <=? 236) || (238 <=? n) && (n <=? 239))%nat
          then utf8_valid 2 128 191 rest
          else if (n =? 237)%nat then utf8_valid 2 128 159 rest
          else if (n =? 240)%nat then utf8_valid 3 144 191 rest
          else if ((241 <=? n) && (n <=? 243))%nat
          then utf8_valid 3 128 191 rest
          else if (n =? 244)%nat then utf8_valid 3 128 143 rest
          else false
      end
  end.

(** The bytes cp1252 leaves undefined. *)
Definition cp1252_undefined (n : nat) : bool :=
  ((n =? 129) || (n =? 141) || (n =? 143) || (n =? 144) || (n =? 157))%nat.

(** Whether the bytes of a file decode as text.  In each of these
    encodings a line feed is the byte 10 and a carriage return the byte
    13, and no other character holds either byte. *)
Definition decodes (enc : text_encoding) (content : string) : bool :=
  let bytes := list_ascii_of_string content in
  match enc with
  | EncUTF8 => utf8_valid 0 0 0 bytes
  | EncASCII => forallb (λ b, (nat_of_ascii b <? 128)%nat) bytes
  | EncLatin1 => true
  | EncCP1252 => forallb (λ b, negb (cp1252_undefined (nat_of_ascii b))) bytes
  end.

(** Directories by path, each a map from file name to content (its
    bytes); the default data directory
    ([Path(__file__).parent.parent/"data"/"cleaned"]); [mp.cpu_count()];
    the locale's preferred text encoding; what [int()] returns on a text
    with a character outside ASCII (see [Py.int_of_str]); and what
    pickling a filter function for a worker process raises, if anything
    (nothing for a function defined at the top level of a module, an
    error for a lambda or a closure). *)
Record Env := mkEnv {
  fs : gmap string (gmap string string);
  default_data_dir : string;
  cpu_count : positive;
  encoding : text_encoding;
  int_non_ascii : string -> option Z;
  pickle_error : (DataFrame -> result DataFrame) -> option exn
}.

Record Path := mkPath { p_dir : string; p_name : string }.

(** [str(path)] *)
Definition path_str (p : Path) : string := p_dir p ++ "/" ++ p_name p.

Definition dir_exists (env : Env) (d : string) : bool :=
  bool_decide (is_Some (fs env !! d)).

Definition file_content (env : Env) (p : Path) : option string :=
  fs env !! p_dir p ≫= (λ files, files !! p_name p).

(** [path.exists()] *)
Definition path_exists (env : Env) (p : Path) : bool :=
  bool_decide (is_Some (file_content env p)).

(** [path.stat().st_size] *)
Definition st_size (content : string) : Z := Z.of_nat (String.length content).

Definition ends_with (suffix s : string) : bool :=
  String.prefix (string_of_list_ascii (rev (list_ascii_of_string suffix)))
                (string_of_list_ascii (rev (list_ascii_of_string s))).

(** [fnmatch(name, "cleaned_*_all.csv")]: the star matches any string. *)
Definition glob_match (name : string) : bool :=
  String.prefix "cleaned_" name && ends_with "_all.csv" name
  && (16 <=? String.length name)%nat.

(** [data_dir.glob("cleaned_*_all.csv")], as file names. *)
Definition glob_year_files (env : Env) (d : string) : list string :=
  match fs env !! d with
  | Some files => List.filter glob_match (map fst (map_to_list files))
  | None => []
  end.

(** [Path.stem]: the name without its last suffix. *)
Fixpoint drop_suffix (rev_name : list ascii) : option (list ascii) :=
  match rev_name with
  | [] => None
  | c :: rest =>
      if Ascii.eqb c "."%char then
        match rest with [] => None | _ => Some rest end
      else drop_suffix rest
  end.

Definition stem (name : string) : string :=
  match list_ascii_of_string name with
  | [] => name
  | chars =>
      match last chars with
      | Some "."%char => name
      | _ =>
          match drop_suffix (rev chars) with
          | Some r => string_of_list_ascii (rev r)
          | None => name
          end
      end
  end.

(** Lines of a text file as iterating [open(path)] gives them: ended by
    LF, CR or CR LF, a last line with no terminator counted too. *)
Fixpoint count_lines (in_line : bool) (s : list ascii) : nat :=
  match s with
  | [] => if in_line then 1 else 0
  | c :: rest =>
      if Ascii.eqb c "010"%char then S (count_lines false rest)
      else if Ascii.eqb c "013"%char then
        match rest with
        | c' :: rest' =>
            if Ascii.eqb c' "010"%char then S (count_lines false rest')
            else S (count_lines false rest)
        | [] => S (count_lines false rest)
        end
      else count_lines true rest
  end.

Definition line_count (content : string) : nat :=
  count_lines false (list_ascii_of_string content).

(** [round(x, 2)] for [x = size / (1024 * 1024)], as a number of
    hundredths: the nearest one, a tie going to the even one.  The quotient
    by a power of two is exact in a double for every file size below
    2^53, and Python rounds the exact value; the float returned is the
    double nearest to that many hundredths. *)
Definition round_half_even (num den : Z) : Z :=
  let q := num / den in
  let r := num mod den in
  if 2 * r <? den then q
  else if den <? 2 * r then q + 1
  else if Z.even q then q else q + 1.

Definition file_size_mb_hundredths (size : Z) : Z :=
  round_half_even (100 * size) (1024 * 1024).

(* ===================================================================== *)
(** ** [class OPTDataLoader] *)
(* ===================================================================== *)

Record OPTDataLoader := mkLoader {
  data_dir : string;
  available_years : list Z
}.

(** The year of a globbed file: [int(f.stem.split('_')[1])]; [None] when
    the [IndexError] or [ValueError] makes the loop [continue]. *)
Definition year_of_file (env : Env) (name : string) : option Z :=
  Py.split "_"%char (stem name) !! 1%nat
  ≫= Py.int_of_str (int_non_ascii env).

Definition str_le (a b : string) : Prop := String.leb a b = true.

#[global] Instance str_le_dec : RelDecision str_le.
Proof. intros a b. unfold str_le. apply _. Defined.

Definition _get_available_years (env : Env) (d : string) : list Z :=
  let csv_files := merge_sort str_le (glob_year_files env d) in
  let years := omap (year_of_file env) csv_files in
  merge_sort Z.le years.

(** [OPTDataLoader(data_dir)] *)
Definition __init__ (env : Env) (dir : option string) : result OPTDataLoader :=
  let d := match dir with
           | None => default_data_dir env
           | Some d => d
           end in
  if negb (dir_exists env d) then
    Raise (Exn FileNotFoundError ("Data directory not found: " ++ d))
  else
    Ok (mkLoader d (_get_available_years env d)).

(** A future of the process pool, once done: the year it was submitted
    for, what [future.result()] gives, and what the worker process
    printed (to its own standard output). *)
Record Future := mkFuture {
  fut_year : Z;
  fut_stdout : list string;
  fut_result : result DataFrame
}.

(** The generator object of [iter_year_chunks]. *)
Inductive chunk_gen :=
  | GenCreated (self : OPTDataLoader) (year chunksize : Z)
               (columns : option (list string)) (dtype : option dtype_hints)
  | GenRunning (pending : list DataFrame) (failure : option exn)
  | GenFinished.

(** The dictionary [get_year_info] returns; ['file_size_mb'] in hundredths. *)
Record YearInfo := mkYearInfo {
  info_year : Z;
  info_file_path : string;
  info_file_size_mb : Z;
  info_estimated_rows : Z;
  info_columns : nat
}.

(** The [years] argument of [quick_load]: a [str], an [int], a [list] of
    ints, or a value of another type (a [float], a tuple, [None], ...). *)
Inductive years_arg :=
  | YearsStr (s : string)
  | YearsInt (y : Z)
  | YearsList (ys : list Z)
  | YearsOther (type_name : string).

Section Loader.
Context `{Pandas}.
Variable env : Env.

Definition filter_fn : Type := DataFrame -> result DataFrame.

(** [pd.read_csv(file_path, ...)]: pandas opens the path itself. *)
Definition no_such_file (p : Path) : exn :=
  Exn FileNotFoundError
      ("[Errno 2] No such file or directory: '" ++ path_str p ++ "'").

Definition pd_read_csv (p : Path) (usecols : option (list string))
    (nrows : option Z) (dtype : option dtype_hints) : result DataFrame :=
  match file_content env p with
  | Some content => read_csv content usecols nrows dtype
  | None => Raise (no_such_file p)
  end.

Definition pd_read_csv_chunked (p : Path) (usecols : option (list string))
    (chunksize : Z) (dtype : option dtype_hints)
  : result (list DataFrame * option exn) :=
  match file_content env p with
  | Some content => read_csv_chunked content usecols chunksize dtype
  | None => Raise (no_such_file p)
  end.

Definition year_file_name (year : Z) : string :=
  "cleaned_" ++ Py.str_int year ++ "_all.csv".

Definition _get_file_path (self : OPTDataLoader) (year : Z) : result Path :=
  let file_path := mkPath (data_dir self) (year_file_name year) in
  if negb (path_exists env file_path) then
    Raise (Exn FileNotFoundError
             ("No data file found for year " ++ Py.str_int year ++ ". "
              ++ "Available years: "
              ++ Py.repr_int_list (available_years self)))
  else Ok file_path.

Definition apply_filter (filter_func : option filter_fn) (df : DataFrame)
  : result DataFrame :=
  match filter_func with
  | Some f => f df
  | None => Ok df
  end.

Definition load_year (self : OPTDataLoader) (year : Z)
    (columns : option (list string)) (filter_func : option filter_fn)
    (nrows : option Z) (dtype : option dtype_hints) : Comp DataFrame :=
  file_path <- lift (_get_file_path self year) ;;
  print ("Loading " ++ Py.str_int year ++ " from " ++ p_name file_path
         ++ "...") ;;;
  df <- lift (pd_read_csv file_path columns nrows dtype) ;;
  df <- lift (apply_filter filter_func df) ;;
  print ("  Loaded " ++ Py.fmt_commas (Z.of_nat (df_len df)) ++ " rows, "
         ++ Py.str_int (Z.of_nat (length (df_columns df)))
         ++ " columns") ;;;
  ret df.

(** [_load_year_worker], run in a worker process. *)
Definition _load_year_worker (file_path : Path) (year : Z)
    (columns : option (list string)) (filter_func : option filter_fn)
    (dtype : option dtype_hints) : Comp DataFrame :=
  print ("Loading " ++ Py.str_int year ++ "...") ;;;
  df <- lift (pd_read_csv file_path columns None dtype) ;;
  df <- lift (apply_filter filter_func df) ;;
  print ("  Loaded " ++ Py.str_int year ++ ": "
         ++ Py.fmt_commas (Z.of_nat (df_len df)) ++ " rows") ;;;
  ret df.

(** What pickling the arguments of a job raises, if anything: the path,
    the year, the column names and the dtype hints always pickle; the
    filter function may not. *)
Definition pickling_failure (filter_func : option filter_fn) : option exn :=
  filter_func ≫= pickle_error env.

(** A job of the process pool, once done.  The executor pickles the
    arguments to send them to a worker process: when that fails, the
    worker never runs and the future holds the pickling error; otherwise
    the future holds what [_load_year_worker] returned or raised. *)
Definition run_job (file_path : Path) (year : Z)
    (columns : option (list string)) (filter_func : option filter_fn)
    (dtype : option dtype_hints) : Future :=
  match pickling_failure filter_func with
  | Some e => mkFuture year [] (Raise e)
  | None =>
      let job := _load_year_worker file_path year columns filter_func
                                   dtype in
      mkFuture year (stdout job) (outcome job)
  end.

(** The dictionary comprehension that submits one job per year: the
    file of each year is resolved in the parent, in request order,
    before the job is submitted. *)
Definition submit (self : OPTDataLoader) (columns : option (list string))
    (filter_func : option filter_fn) (dtype : option dtype_hints)
    (year : Z) : Comp Future :=
  file_path <- lift (_get_file_path self year) ;;
  ret (run_job file_path year columns filter_func dtype).

(** [as_completed(future_to_year)]: every future once, in the order the
    workers finish; [sched] lists the positions in submission order. *)
Definition as_completed (sched : list nat) (futures : list Future)
  : list Future :=
  omap (λ i, futures !! i) sched.

(** The loop that collects the results as they complete. *)
Fixpoint collect (completed : list Future) (dfs : list DataFrame)
  : Comp (list DataFrame) :=
  match completed with
  | [] => ret dfs
  | future :: rest =>
      match fut_result future with
      | Ok df => collect rest (dfs ++ [df])%list
      | Raise e =>
          print ("Error loading year " ++ Py.str_int (fut_year future)
                 ++ ": " ++ exc_msg e) ;;;
          raise e
      end
  end.

Definition _load_years_parallel (self : OPTDataLoader) (years : list Z)
    (columns : option (list string)) (filter_func : option filter_fn)
    (dtype : option dtype_hints) (sched : list nat) : Comp DataFrame :=
  let max_workers := Nat.min (length years) (Pos.to_nat (cpu_count env)) in
  if (max_workers <=? 0)%nat then
    raise (Exn ValueError "max_workers must be greater than 0")
  else
    future_to_year <- for_each (submit self columns filter_func dtype)
                               years ;;
    dfs <- collect (as_completed sched future_to_year) [] ;;
    result <- lift (concat_ignore_index dfs) ;;
    print ("Combined total: " ++ Py.fmt_commas (Z.of_nat (df_len result))
           ++ " rows") ;;;
    ret result.

Definition load_years (self : OPTDataLoader) (years : list Z)
    (columns : option (list string)) (filter_func : option filter_fn)
    (parallel : bool) (dtype : option dtype_hints) (sched : list nat)
  : Comp DataFrame :=
  if parallel && (1 <? length years)%nat then
    print ("Loading " ++ Py.str_int (Z.of_nat (length years))
           ++ " years in parallel...") ;;;
    _load_years_parallel self years columns filter_func dtype sched
  else
    print ("Loading " ++ Py.str_int (Z.of_nat (length years))
           ++ " years sequentially...") ;;;
    dfs <- for_each (λ year, load_year self year columns filter_func
                                       None dtype) years ;;
    result <- lift (concat_ignore_index dfs) ;;
    print ("Combined total: " ++ Py.fmt_commas (Z.of_nat (df_len result))
           ++ " rows") ;;;
    ret result.

Definition load_all (self : OPTDataLoader) (columns : option (list string))
    (filter_func : option filter_fn) (parallel : bool)
    (dtype : option dtype_hints) (sched : list nat) : Comp DataFrame :=
  load_years self (available_years self) columns filter_func parallel
             dtype sched.

(** Calling the generator function runs none of its body. *)
Definition iter_year_chunks (self : OPTDataLoader) (year chunksize : Z)
    (columns : option (list string)) (dtype : option dtype_hints)
  : chunk_gen :=
  GenCreated self year chunksize columns dtype.

(** One step of the loop [for chunk in pd.read_csv(...): yield chunk]. *)
Definition gen_resume (pending : list DataFrame) (failure : option exn)
  : result (option DataFrame) * chunk_gen :=
  match pending with
  | chunk :: rest => (Ok (Some chunk), GenRunning rest failure)
  | [] =>
      match failure with
      | Some e => (Raise e, GenFinished)
      | None => (Ok None, GenFinished)
      end
  end.

(** [next(gen)]: [Ok (Some chunk)] for a yielded chunk, [Ok None] for
    [StopIteration]; the body starts at the first call. *)
Definition gen_next (g : chunk_gen)
  : Comp (option DataFrame) * chunk_gen :=
  match g with
  | GenCreated self year chunksize columns dtype =>
      match _get_file_path self year with
      | Raise e => (raise e, GenFinished)
      | Ok file_path =>
          let line := "Iterating through " ++ Py.str_int year
                      ++ " in chunks of " ++ Py.fmt_commas chunksize
                      ++ " rows..." in
          match pd_read_csv_chunked file_path columns chunksize dtype with
          | Raise e => (([line], Raise e), GenFinished)
          | Ok (chunks, failure) =>
              let '(r, g') := gen_resume chunks failure in
              (([line], r), g')
          end
      end
  | GenRunning pending failure =>
      let '(r, g') := gen_resume pending failure in (lift r, g')
  | GenFinished => (ret None, GenFinished)
  end.


Definition get_column_names (self : OPTDataLoader) (year : option Z)
  : Comp (list string) :=
  year <- match year with
          | None =>
              match Py.last_item (available_years self) with
              | Some y => ret y
              | None => raise (Exn IndexError "list index out of range")
              end
          | Some y => ret y
          end ;;
  file_path <- lift (_get_file_path self year) ;;
  df <- lift (pd_read_csv file_path None (Some 0) None) ;;
  ret (df_columns df).

Definition sample_year (self : OPTDataLoader) (year n : Z)
    (columns : option (list string)) : Comp DataFrame :=
  file_path <- lift (_get_file_path self year) ;;
  print ("Sampling " ++ Py.str_int n ++ " rows from " ++ Py.str_int year
         ++ "...") ;;;
  df <- lift (pd_read_csv file_path columns None None) ;;
  sample <- (if n <? Z.of_nat (df_len df)
             then lift (df_sample df n 42)
             else ret df) ;;
  print ("  Sampled " ++ Py.fmt_commas (Z.of_nat (df_len sample))
         ++ " rows") ;;;
  ret sample.

(** The [UnicodeDecodeError] that iterating [open(file_path)] raises
    when the bytes of the file do not decode in the preferred encoding
    (the message, which also names the byte and its position, is
    abridged). *)
Definition codec_name (enc : text_encoding) : string :=
  match enc with
  | EncUTF8 => "utf-8"
  | EncASCII => "ascii"
  | EncLatin1 => "latin-1"
  | EncCP1252 => "charmap"
  end.

Definition decode_error (content : string) : option exn :=
  if decodes (encoding env) content then None
  else Some (Exn UnicodeDecodeError
                 ("'" ++ codec_name (encoding env)
                  ++ "' codec can't decode byte")).

Definition get_year_info (self : OPTDataLoader) (year : Z)
  : Comp YearInfo :=
  file_path <- lift (_get_file_path self year) ;;
  match file_content env file_path with
  | None => raise (no_such_file file_path)
  | Some content =>
      let file_size_mb := file_size_mb_hundredths (st_size content) in
      match decode_error content with
      | Some e => raise e
      | None =>
          let nrows := Z.of_nat (line_count content) - 1 in
          columns <- get_column_names self (Some year) ;;
          ret (mkYearInfo year (path_str file_path) file_size_mb nrows
                          (length columns))
      end
  end.

Definition is_all (years : years_arg) : bool :=
  match years with
  | YearsStr s => String.eqb s "all"
  | _ => false
  end.

Definition isinstance_int (years : years_arg) : option Z :=
  match years with YearsInt y => Some y | _ => None end.

Definition isinstance_list (years : years_arg) : option (list Z) :=
  match years with YearsList ys => Some ys | _ => None end.

Definition quick_load (years : years_arg) (columns : option (list string))
    (filter_func : option filter_fn) (dir : option string)
    (sched : list nat) : Comp DataFrame :=
  loader <- lift (__init__ env dir) ;;
  if is_all years then
    load_all loader columns filter_func true None sched
  else
    match isinstance_int years with
    | Some y => load_year loader y columns filter_func None None
    | None =>
        match isinstance_list years with
        | Some ys => load_years loader ys columns filter_func true None
                                sched
        | None =>
            raise (Exn ValueError
                     "years must be an int, list of ints, or 'all'")
        end
    end.
End Loader.

(* ===================================================================== *)
(** ** [MiniPandas]: an executable instance of the interface *)
(* ===================================================================== *)

(** A small reader for comma-separated text with LF line ends and no
    quoting.  Every field is kept as text (what pandas does under
    [dtype=str]) and an empty field is [NaN]; dtype hints change nothing.
    It raises what pandas raises on the inputs it accepts: an empty file
    is an [EmptyDataError], a row longer than the header a [ParserError],
    an unknown [usecols] name, a negative [nrows] or [n] and a chunk size
    below one a [ValueError]. *)
Module MiniPandas.

Definition lines (content : string) : list string :=
  List.filter (λ l, negb (String.eqb l EmptyString))
              (Py.split "010"%char content).

Definition parse_cell (field : string) : cell :=
  if String.eqb field EmptyString then CNaN else CStr field.

Definition parse_row (width : nat) (line : string) : option row :=
  let r := map parse_cell (Py.split ","%char line) in
  if (width <? length r)%nat then None
  else Some (r ++ replicate (width - length r) CNaN)%list.

Fixpoint parse_rows (width : nat) (body : list string) : result (list row) :=
  match body with
  | [] => Ok []
  | line :: rest =>
      match parse_row width line with
      | None => Raise (Exn (LibraryError "ParserError")
                           "Error tokenizing data")
      | Some r => result_map (cons r) (parse_rows width rest)
      end
  end.

Fixpoint select {A} (keep : list bool) (l : list A) : list A :=
  match keep, l with
  | true :: keep', x :: l' => x :: select keep' l'
  | false :: keep', _ :: l' => select keep' l'
  | _, _ => []
  end.

Definition mem (c : string) (l : list string) : bool :=
  existsb (String.eqb c) l.

Definition keep_mask (usecols : option (list string))
    (names : list string) : result (list bool) :=
  match usecols with
  | Some want =>
      if negb (forallb (λ c, mem c names) want) then
        Raise (Exn ValueError "Usecols do not match columns")
      else Ok (map (λ c, mem c want) names)
  | None => Ok (map (λ _, true) names)
  end.

Definition cap_rows (nrows : option Z) (body : list string)
  : result (list string) :=
  match nrows with
  | Some n =>
      if n <? 0 then
        Raise (Exn ValueError "'nrows' must be an integer >=0")
      else Ok (take (Z.to_nat n) body)
  | None => Ok body
  end.

Definition mini_read_csv (content : string)
    (usecols : option (list string)) (nrows : option Z)
    (dtype : option dtype_hints) : result DataFrame :=
  match lines content with
  | [] => Raise (Exn (LibraryError "EmptyDataError")
                     "No columns to parse from file")
  | header :: body =>
      let names := Py.split ","%char header in
      result_bind (keep_mask usecols names) (λ keep,
      result_bind (cap_rows nrows body) (λ body',
      result_bind (parse_rows (length names) body') (λ rows,
      Ok (mkDataFrame (select keep names)
                      (relabel (map (select keep) rows))))))
  end.

(** Consecutive slices of [k] elements; [fuel] bounds the length. *)
Fixpoint chunks_of {A} (fuel k : nat) (l : list A) : list (list A) :=
  match fuel, l with
  | S fuel', _ :: _ => take k l :: chunks_of fuel' k (drop k l)
  | _, _ => []
  end.

(** The chunks of a table: slices of [k] rows that keep their labels,
    and one empty chunk for a table with no row. *)
Definition chunk_frames (k : nat) (df : DataFrame) : list DataFrame :=
  match df_rows df with
  | [] => [df]
  | rows => map (mkDataFrame (df_columns df))
                (chunks_of (length rows) k rows)
  end.

Definition mini_read_csv_chunked (content : string)
    (usecols : option (list string)) (chunksize : Z)
    (dtype : option dtype_hints) : result (list DataFrame * option exn) :=
  if chunksize <? 1 then
    Raise (Exn ValueError "'chunksize' must be an integer >=1")
  else
    result_map (λ df, (chunk_frames (Z.to_nat chunksize) df, None))
               (mini_read_csv content usecols None dtype).

Definition same_columns (a b : list string) : bool :=
  bool_decide (a = b).

(** The value of column [c] in a row laid out by [names]. *)
Fixpoint cell_at (c : string) (names : list string) (r : row) : cell :=
  match names, r with
  | name :: names', v :: r' =>
      if String.eqb name c then v else cell_at c names' r'
  | _, _ => CNaN
  end.

Definition realign (names : list string) (df : DataFrame) : list row :=
  map (λ r, map (λ c, cell_at c (df_columns df) r) names) (df_values df).

Definition mini_concat (dfs : list DataFrame) : result DataFrame :=
  match dfs with
  | [] => Raise (Exn ValueError "No objects to concatenate")
  | first :: rest =>
      if forallb (λ d, same_columns (df_columns d) (df_columns first)) rest
      then Ok (mkDataFrame (df_columns first)
                           (relabel (concat (map df_values dfs))))
      else
        let names := remove_dups (concat (map df_columns dfs)) in
        Ok (mkDataFrame names (relabel (concat (map (realign names) dfs))))
  end.

(** A sample without replacement that depends on the seed only: [n]
    rows from the position the seed selects, wrapping around. *)
Definition mini_sample (df : DataFrame) (n seed : Z) : result DataFrame :=
  if n <? 0 then
    Raise (Exn ValueError "A negative number of rows requested")
  else if Z.of_nat (df_len df) <? n then
    Raise (Exn ValueError "Cannot take a larger sample than population")
  else
    Ok (mkDataFrame (df_columns df)
                    (take (Z.to_nat n)
                          (rotate (Z.to_nat (Z.abs seed)) (df_rows df)))).

#[global] Instance mini_pandas : Pandas := {|
  read_csv := mini_read_csv;
  read_csv_chunked := mini_read_csv_chunked;
  concat_ignore_index := mini_concat;
  df_sample := mini_sample
|}.

End MiniPandas.

(* ===================================================================== *)
(** ** [InferPandas]: [MiniPandas] with type inference *)
(* ===================================================================== *)

(** pandas types a column that has no dtype hint from the values it has
    parsed: all of the file in a whole read, one chunk at a time in a
    chunked read.  This reader does the same on top of [MiniPandas]: a
    column with no hint whose every field is a whole number becomes a
    column of ints; a column with a hint is kept as text, which is what
    the hint [str] asks for. *)
Module InferPandas.
Import MiniPandas.










End InferPandas.

(* ===================================================================== *)
(** ** What the module relies on from pandas, and the spec's own words *)
(* ===================================================================== *)

(** The labels of a fresh [RangeIndex] over [n] rows. *)
Definition range_index (n : nat) : list Z := map Z.of_nat (seq 0 n).

Definition year_path (self : OPTDataLoader) (year : Z) : Path :=
  mkPath (data_dir self) (year_file_name year).

(** A year with no file in the loader's directory. *)
Definition missing (env : Env) (self : OPTDataLoader) (year : Z) : Prop :=
  file_content env (year_path self year) = None.

(** The error [_get_file_path] raises for a year with no file. *)
Definition no_data_file (self : OPTDataLoader) (year : Z) : exn :=
  Exn FileNotFoundError
      ("No data file found for year " ++ Py.str_int year ++ ". "
       ++ "Available years: " ++ Py.repr_int_list (available_years self)).

(** The error [quick_load] raises for an unsupported [years] argument. *)
Definition invalid_years : exn :=
  Exn ValueError "years must be an int, list of ints, or 'all'".

(** The line the parallel loop prints for a failed future. *)
Definition error_report (year : Z) (e : exn) : string :=
  "Error loading year " ++ Py.str_int year ++ ": " ++ exc_msg e.

Section Contracts.
Context `{Pandas}.

(** Iterating a chunked read of a file that the whole-file read
    parses, whatever the dtype hints: no error ends the iteration, every
    chunk but the last has [k] rows, the last at most [k], all under the
    columns of the whole read, and the index labels of the chunks, put
    end to end, are those of the whole read (so there are as many
    rows). *)
Definition ChunkShapeContract : Prop :=
  ∀ content usecols (k : Z) dtype df,
    1 ≤ k →
    read_csv content usecols None dtype = Ok df →
    ∃ chunks,
      read_csv_chunked content usecols k dtype = Ok (chunks, None)
      ∧ Forall (λ c, df_columns c = df_columns df) chunks
      ∧ concat (map df_labels chunks) = df_labels df
      ∧ (∀ i c, chunks !! i = Some c → (S i < length chunks)%nat →
                 Z.of_nat (df_len c) = k)
      ∧ (∀ c, last chunks = Some c → Z.of_nat (df_len c) ≤ k).

(** The values of the chunks are those of the whole read when the dtype
    hints fix the type of every column read.  With no hint for a column
    pandas infers its type from the values at hand, chunk by chunk in a
    chunked read, so the values can differ. *)
Definition hints_cover (hints : dtype_hints) (df : DataFrame) : Prop :=
  ∀ c, c ∈ df_columns df → c ∈ map fst hints.

Definition ChunkValueContract : Prop :=
  ∀ content usecols (k : Z) hints df chunks failure,
    1 ≤ k →
    read_csv content usecols None (Some hints) = Ok df →
    hints_cover hints df →
    read_csv_chunked content usecols k (Some hints) = Ok (chunks, failure) →
    concat (map df_rows chunks) = df_rows df.

(** [pd.concat(dfs, ignore_index=True)]: nothing to concatenate is a
    [ValueError]; a result has one row per input row and a fresh
    [RangeIndex]; frames with the same columns are appended in order. *)
Definition ConcatContract : Prop :=
  concat_ignore_index [] = Raise (Exn ValueError "No objects to concatenate")
  ∧ (∀ dfs r, concat_ignore_index dfs = Ok r →
       df_len r = length (concat (map df_rows dfs))
       ∧ df_labels r = range_index (df_len r))
  ∧ (∀ dfs names, dfs ≠ [] →
       Forall (λ d, df_columns d = names) dfs →
       concat_ignore_index dfs
       = Ok (mkDataFrame names (relabel (concat (map df_values dfs))))).

(** [df.sample(n=n, random_state=seed)] with [0 <= n <= len(df)]: [n]
    rows of the table, none taken twice, under the same columns. *)
Definition SampleContract : Prop :=
  ∀ df (n seed : Z),
    0 ≤ n ≤ Z.of_nat (df_len df) →
    ∃ s, df_sample df n seed = Ok s
         ∧ df_columns s = df_columns df
         ∧ Z.of_nat (df_len s) = n
         ∧ df_rows s ⊆+ df_rows df.

Variable env : Env.

(** The spec's description of the sequential multi-year load: load each
    year with [load_year] in request order, then concatenate the results
    in that order under a fresh index. *)
Fixpoint load_each (self : OPTDataLoader) (years : list Z)
    (columns : option (list string)) (filter_func : option filter_fn)
    (dtype : option dtype_hints) : result (list DataFrame) :=
  match years with
  | [] => Ok []
  | year :: rest =>
      result_bind
        (outcome (load_year env self year columns filter_func None dtype))
        (λ df, result_map (cons df)
                 (load_each self rest columns filter_func dtype))
  end.

Definition load_each_then_concat (self : OPTDataLoader) (years : list Z)
    (columns : option (list string)) (filter_func : option filter_fn)
    (dtype : option dtype_hints) : result DataFrame :=
  result_bind (load_each self years columns filter_func dtype)
              concat_ignore_index.

(** The future of a year whose file was resolved. *)
Definition future_of (self : OPTDataLoader)
    (columns : option (list string)) (filter_func : option filter_fn)
    (dtype : option dtype_hints) (year : Z) : Future :=
  run_job env (year_path self year) year columns filter_func dtype.
End Contracts.







(** A file system for the examples: one data directory with the files of
    2020 (three rows) and 2021 (one row, last line not terminated), an
    empty file for 2019 and a file that is not a year file. *)
Module Example.
Definition nl : string := String "010"%char EmptyString.

Definition csv_2020 : string :=
  "a,b" ++ nl ++ "1,2" ++ nl ++ "3," ++ nl ++ "5,6" ++ nl.

Definition csv_2021 : string := "a,b" ++ nl ++ "7,8".

Definition env : Env :=
  mkEnv {[ "/data" := {[ "cleaned_2019_all.csv" := EmptyString;
                         "cleaned_2020_all.csv" := csv_2020;
                         "cleaned_2021_all.csv" := csv_2021;
                         "notes.txt" := "n/a" ]} ]}
        "/opt/data/cleaned" 4 EncUTF8 (λ _, None) (λ _, None).

Definition empty_env : Env :=
  mkEnv {[ "/data" := {[ "notes.txt" := "n/a" ]} ]} "/opt/data/cleaned" 4
        EncUTF8 (λ _, None) (λ _, None).

Definition loader : OPTDataLoader := mkLoader "/data" [2019; 2020; 2021].

(** A directory whose only year file carries a version tag. *)
Definition variant_env : Env :=
  mkEnv {[ "/data" := {[ "cleaned_2018_v2_all.csv" := csv_2021 ]} ]}
        "/opt/data/cleaned" 4 EncUTF8 (λ _, None) (λ _, None).



(** A year file whose second line holds a byte that is not UTF-8. *)
Definition csv_bad_byte : string :=
  "a,b" ++ nl ++ "1," ++ String "255"%char EmptyString ++ nl.

Definition bad_byte_env : Env :=
  mkEnv {[ "/data" := {[ "cleaned_2020_all.csv" := csv_bad_byte ]} ]}
        "/opt/data/cleaned" 4 EncUTF8 (λ _, None) (λ _, None).

(** The example directory on a system where no filter function can be
    pickled, as is the case of every lambda. *)
Definition cannot_pickle : exn :=
  Exn (LibraryError "PicklingError") "Can't pickle <function <lambda>>".

Definition lambda_env : Env :=
  mkEnv (fs env) "/opt/data/cleaned" 4 EncUTF8 (λ _, None)
        (λ _, Some cannot_pickle).

Definition first_is (v : string) (r : Z * row) : bool :=
  match snd r with
  | CStr s :: _ => String.eqb s v
  | _ => false
  end.
End Example.

(* ===================================================================== *)
(** ** A further contract of pandas *)
(* ===================================================================== *)

(** [df.sample(n=n, ...)] refuses a negative [n] with a [ValueError],
    whatever the table. *)
Definition SampleRejectsNegative `{Pandas} : Prop :=
  ∀ df (n seed : Z), n < 0 →
    ∃ msg, df_sample df n seed = Raise (Exn ValueError msg).

(* ===================================================================== *)
(** ** Decimal digits *)
(* ===================================================================== *)

(** The characters [str] prints for an unsigned decimal number. *)
Definition uint_chars (d : Decimal.uint) : list ascii :=
  list_ascii_of_string (NilEmpty.string_of_uint d).

Definition is_digit (c : ascii) : Prop := is_Some (Py.digit_val c).

(* ===================================================================== *)
(** ** The generator protocol and the collecting loop, as sequences *)
(* ===================================================================== *)

(** What collecting futures in the given order amounts to: their tables
    in that order, or the exception of the first one that failed. *)
Fixpoint gather (completed : list Future) : result (list DataFrame) :=
  match completed with
  | [] => Ok []
  | future :: rest =>
      result_bind (fut_result future)
                  (λ df, result_map (cons df) (gather rest))
  end.

Section Protocol.
Context `{Pandas}.
Variable env : Env.

(** The outcomes of the first [n] calls of [next] on a generator, and
    the generator they leave. *)
Fixpoint nexts (n : nat) (g : chunk_gen)
  : list (result (option DataFrame)) * chunk_gen :=
  match n with
  | O => ([], g)
  | S n' =>
      let '(c, g') := gen_next env g in
      let '(rs, g'') := nexts n' g' in
      (outcome c :: rs, g'')
  end.
End Protocol.

(* ===================================================================== *)
(** * Properties *)
(* ===================================================================== *)

(** ** Computations *)

Lemma outcome_bind {A B} (c : Comp A) (f : A -> Comp B) :
  outcome (bind c f) = result_bind (outcome c) (λ a, outcome (f a)).
Proof.
  destruct c as [out [a | e]]; simpl; [| reflexivity].
  destruct (f a); reflexivity.
Qed.

Lemma bind_lift_ok {A B} (a : A) (f : A -> Comp B) :
  bind (lift (Ok a)) f = f a.
Proof. unfold bind, lift. destruct (f a); reflexivity. Qed.

Lemma bind_lift_raise {A B} (e : exn) (f : A -> Comp B) :
  bind (lift (Raise e)) f = ([], Raise e).
Proof. reflexivity. Qed.

Lemma bind_ret {A B} (a : A) (f : A -> Comp B) : bind (ret a) f = f a.
Proof. apply bind_lift_ok. Qed.

Lemma bind_print {B} (line : string) (k : Comp B) :
  bind (print line) (λ _, k) = (line :: stdout k, outcome k).
Proof. unfold bind, print. destruct k; reflexivity. Qed.

Lemma outcome_lift {A} (r : result A) : outcome (lift r) = r.
Proof. reflexivity. Qed.

Lemma result_bind_ok_r {A} (r : result A) : result_bind r Ok = r.
Proof. destruct r; reflexivity. Qed.

(** ** File resolution *)

Section Resolution.
Context `{Pandas}.
Variable env : Env.

Lemma get_file_path_found self year content :
  file_content env (year_path self year) = Some content →
  _get_file_path env self year = Ok (year_path self year).
Proof.
  intros Hc. unfold _get_file_path, path_exists.
  fold (year_path self year). rewrite Hc.
  rewrite bool_decide_eq_true_2; [reflexivity | eauto].
Qed.

Lemma get_file_path_missing self year :
  file_content env (year_path self year) = None →
  _get_file_path env self year = Raise (no_data_file self year).
Proof.
  intros Hc. unfold _get_file_path, path_exists.
  fold (year_path self year). rewrite Hc.
  rewrite bool_decide_eq_false_2; [reflexivity |].
  intros [? ?]; discriminate.
Qed.

Lemma get_file_path_cases self year :
  (∃ content, file_content env (year_path self year) = Some content
              ∧ _get_file_path env self year = Ok (year_path self year))
  ∨ (file_content env (year_path self year) = None
     ∧ _get_file_path env self year = Raise (no_data_file self year)).
Proof.
  destruct (file_content env (year_path self year)) as [c |] eqn:Hc.
  - left. eauto using get_file_path_found.
  - right. eauto using get_file_path_missing.
Qed.

Lemma pd_read_csv_found p content usecols nrows dtype :
  file_content env p = Some content →
  pd_read_csv env p usecols nrows dtype
  = read_csv content usecols nrows dtype.
Proof. intros Hc. unfold pd_read_csv. rewrite Hc. reflexivity. Qed.

(** What [load_year] returns once the file is resolved: the read, then
    the filter. *)
Lemma load_year_outcome self year columns filter_func nrows dtype content :
  file_content env (year_path self year) = Some content →
  outcome (load_year env self year columns filter_func nrows dtype)
  = result_bind (read_csv content columns nrows dtype)
                (apply_filter filter_func).
Proof.
  intros Hc. unfold load_year.
  rewrite (get_file_path_found _ _ _ Hc), bind_lift_ok, bind_print.
  cbn [outcome snd]. rewrite outcome_bind, outcome_lift.
  rewrite (pd_read_csv_found _ _ _ _ _ Hc).
  destruct (read_csv content columns nrows dtype) as [df | e];
    [| reflexivity].
  cbn [result_bind]. rewrite outcome_bind, outcome_lift.
  destruct (apply_filter filter_func df) as [df' | e]; [| reflexivity].
  cbn [result_bind]. rewrite bind_print. reflexivity.
Qed.

Lemma load_year_missing self year columns filter_func nrows dtype :
  file_content env (year_path self year) = None →
  load_year env self year columns filter_func nrows dtype
  = ([], Raise (no_data_file self year)).
Proof.
  intros Hc. unfold load_year.
  rewrite (get_file_path_missing _ _ Hc). reflexivity.
Qed.
End Resolution.

(** ** Single-year load *)

Section SingleYear.
Context `{Pandas}.
Variable env : Env.

(** C1. For a year whose file exists, [load_year] without a filter
    returns the physical read unchanged, and [load_year] with the filter
    of a row predicate [p] returns the table of the unfiltered load
    restricted to exactly the rows for which [p] holds (same columns,
    same order, labels kept); a failed read fails both the same way. *)
Theorem load_year_filter_exact self year columns nrows dtype content
    (p : Z * row -> bool) :
  file_content env (year_path self year) = Some content →
  outcome (load_year env self year columns None nrows dtype)
  = read_csv content columns nrows dtype
  ∧ outcome (load_year env self year columns (Some (row_filter p))
                       nrows dtype)
    = result_map
        (λ df, mkDataFrame (df_columns df) (List.filter p (df_rows df)))
        (outcome (load_year env self year columns None nrows dtype))
  ∧ ∀ df df',
      outcome (load_year env self year columns None nrows dtype) = Ok df →
      outcome (load_year env self year columns (Some (row_filter p))
                         nrows dtype) = Ok df' →
      ∀ r, r ∈ df_rows df' ↔ r ∈ df_rows df ∧ p r = true.
Proof.
  intros Hc.
  rewrite !(load_year_outcome env _ _ _ _ _ _ _ Hc).
  destruct (read_csv content columns nrows dtype) as [df0 | e]; cbn.
  - split; [reflexivity |]. split; [reflexivity |].
    intros df df' [= <-] [= <-] r. cbn.
    rewrite !list_elem_of_In, filter_In. reflexivity.
  - split; [reflexivity |]. split; [reflexivity |].
    intros df df' [=].
Qed.
End SingleYear.

(** ** Tables *)

Lemma relabel_length (rows : list row) : length (relabel rows) = length rows.
Proof.
  unfold relabel. rewrite length_zip, length_map, length_seq. lia.
Qed.

Lemma relabel_labels (rows : list row) :
  map fst (relabel rows) = range_index (length rows).
Proof.
  unfold relabel, range_index.
  apply (fst_zip (map Z.of_nat (seq 0 (length rows))) rows).
  rewrite length_map, length_seq. lia.
Qed.

Lemma relabel_values (rows : list row) : map snd (relabel rows) = rows.
Proof.
  unfold relabel.
  apply (snd_zip (map Z.of_nat (seq 0 (length rows))) rows).
  rewrite length_map, length_seq. lia.
Qed.

Lemma concat_map_length {A B C} (f : A -> list B) (g : A -> list C)
    (l : list A) :
  (∀ a, length (f a) = length (g a)) →
  length (concat (map f l)) = length (concat (map g l)).
Proof.
  intros Hfg. induction l as [| a l IH]; [reflexivity |].
  cbn. rewrite !length_app, IH, Hfg. reflexivity.
Qed.

(** ** The contracts hold of [MiniPandas] *)

Module MiniPandasFacts.
Import MiniPandas.

Section Chunks.
Context {A : Type}.
Variable k : nat.
Hypothesis k_pos : (1 ≤ k)%nat.

Lemma chunks_of_concat fuel (l : list A) :
  (length l ≤ fuel)%nat → concat (chunks_of fuel k l) = l.
Proof.
  revert l. induction fuel as [| fuel IH]; intros l Hl.
  - destruct l; [reflexivity | cbn in Hl; lia].
  - destruct l as [| x l]; [reflexivity |].
    cbn [chunks_of concat]. rewrite IH.
    + apply take_drop.
    + rewrite length_drop. cbn in *. lia.
Qed.

Lemma chunks_of_sizes fuel (l : list A) i c :
  (length l ≤ fuel)%nat →
  chunks_of fuel k l !! i = Some c →
  (length c ≤ k)%nat
  ∧ ((S i < length (chunks_of fuel k l))%nat → length c = k).
Proof.
  revert l i. induction fuel as [| fuel IH]; intros l i Hl Hi.
  - destruct l; discriminate.
  - destruct l as [| x l]; [discriminate |].
    cbn [chunks_of] in *. destruct i as [| i].
    + injection Hi as <-. split; [rewrite length_take; lia |].
      intros Hlen. cbn [length] in Hlen.
      destruct (decide (k ≤ length (x :: l))%nat) as [Hk | Hk].
      * rewrite length_take. lia.
      * rewrite drop_ge in Hlen by lia.
        destruct fuel; cbn in Hlen; lia.
    + cbn in Hi. apply IH in Hi.
      * destruct Hi as [Hle Heq]. split; [exact Hle |].
        intros Hlen. apply Heq. cbn [length] in Hlen. lia.
      * rewrite length_drop. cbn in *. lia.
Qed.
End Chunks.

Lemma chunk_frames_spec (k : nat) (df : DataFrame) :
  (1 ≤ k)%nat →
  Forall (λ c, df_columns c = df_columns df) (chunk_frames k df)
  ∧ concat (map df_rows (chunk_frames k df)) = df_rows df
  ∧ (∀ i c, chunk_frames k df !! i = Some c →
       (df_len c ≤ k)%nat
       ∧ ((S i < length (chunk_frames k df))%nat → df_len c = k)).
Proof.
  intros Hk. unfold chunk_frames.
  destruct (df_rows df) as [| r rows] eqn:Hrows.
  - split; [repeat constructor |].
    split; [cbn; rewrite Hrows; reflexivity |].
    intros [| i] c Hi; [| discriminate]. injection Hi as <-.
    unfold df_len. rewrite Hrows. cbn. split; lia.
  - set (l := r :: rows) in *.
    split; [apply Forall_forall; intros c Hc;
            apply list_elem_of_In, in_map_iff in Hc;
            destruct Hc as (x & <- & _); reflexivity |].
    split.
    + rewrite map_map.
      rewrite (map_ext _ id) by (intros; reflexivity).
      rewrite map_id. apply chunks_of_concat; [exact Hk | lia].
    + intros i c Hi. rewrite length_map.
      change (map ?f ?l) with (f <$> l) in Hi.
      rewrite list_lookup_fmap in Hi.
      destruct (chunks_of (length l) k l !! i) as [rs |] eqn:Hrs;
        [| discriminate].
      injection Hi as <-. unfold df_len. cbn [df_rows].
      apply (chunks_of_sizes k Hk (length l) l i rs); [lia | exact Hrs].
Qed.

Lemma mini_chunked_ok content usecols (k : Z) dtype df :
  1 ≤ k →
  mini_read_csv content usecols None dtype = Ok df →
  mini_read_csv_chunked content usecols k dtype
  = Ok (chunk_frames (Z.to_nat k) df, None).
Proof.
  intros Hk Hread. unfold mini_read_csv_chunked.
  destruct (Z.ltb_spec k 1) as [? | _]; [lia |].
  rewrite Hread. reflexivity.
Qed.

Lemma mini_chunk_shape_contract : ChunkShapeContract.
Proof.
  intros content usecols k dtype df Hk Hread. cbn in *.
  rewrite (mini_chunked_ok _ _ _ _ _ Hk Hread).
  destruct (chunk_frames_spec (Z.to_nat k) df) as (Hcols & Hcat & Hsz);
    [lia |].
  eexists. split; [reflexivity |].
  split; [exact Hcols |]. split.
  - unfold df_labels. rewrite <- Hcat, concat_map, map_map. reflexivity.
  - split.
    + intros i c Hi Hlt. destruct (Hsz i c Hi) as [_ Heq].
      rewrite (Heq Hlt). lia.
    + intros c Hlast. rewrite last_lookup in Hlast.
      destruct (Hsz _ c Hlast) as [Hle _]. lia.
Qed.

Lemma mini_chunk_value_contract : ChunkValueContract.
Proof.
  intros content usecols k hints df chunks failure Hk Hread _ Hchunked.
  cbn in *. rewrite (mini_chunked_ok _ _ _ _ _ Hk Hread) in Hchunked.
  injection Hchunked as <- _.
  apply chunk_frames_spec. lia.
Qed.

Lemma mini_concat_contract : ConcatContract.
Proof.
  split; [reflexivity |]. split.
  - intros dfs r Hr. cbn in Hr. unfold mini_concat in Hr.
    destruct dfs as [| first rest]; [discriminate |].
    destruct (forallb _ rest); injection Hr as <-;
      unfold df_len, df_labels; cbn [df_rows];
      rewrite relabel_length, relabel_labels.
    + split; [| reflexivity].
      apply (concat_map_length df_values df_rows (first :: rest)).
      intros d. apply length_map.
    + split; [| reflexivity].
      apply (concat_map_length (realign _) df_rows (first :: rest)).
      intros d. unfold realign, df_values.
      rewrite !length_map. reflexivity.
  - intros dfs names Hne Hall. cbn. unfold mini_concat.
    destruct dfs as [| first rest]; [congruence |].
    inversion Hall as [| ? ? Hfirst Hrest]; subst.
    rewrite (proj2 (forallb_forall _ rest)); [reflexivity |].
    intros d Hd. unfold same_columns. apply bool_decide_eq_true_2.
    rewrite Forall_forall in Hrest. apply Hrest, list_elem_of_In, Hd.
Qed.

Lemma mini_sample_contract : SampleContract.
Proof.
  intros df n seed [Hn0 Hn]. cbn. unfold mini_sample.
  destruct (Z.ltb_spec n 0) as [? | _]; [lia |].
  destruct (Z.ltb_spec (Z.of_nat (df_len df)) n) as [? | _]; [lia |].
  eexists. split; [reflexivity |]. split; [reflexivity |].
  unfold df_len in *. cbn [df_rows]. split.
  - rewrite length_take, length_rotate. lia.
  - etrans; [apply submseteq_take |].
    apply Permutation_submseteq. unfold rotate.
    rewrite Permutation_app_comm, take_drop. reflexivity.
Qed.
End MiniPandasFacts.

(** ** The chunk contracts hold of [InferPandas] *)

Module InferPandasFacts.
Import MiniPandas InferPandas MiniPandasFacts.










End InferPandasFacts.

(** C1 at the 2020 file of the example directory, filtered on [a == "1"]. *)
Lemma load_year_filter_exact_witness :
  outcome (load_year Example.env Example.loader 2020 None None None None)
  = read_csv Example.csv_2020 None None None
  ∧ outcome (load_year Example.env Example.loader 2020 None
                       (Some (row_filter (Example.first_is "1"))) None None)
    = result_map
        (λ df, mkDataFrame (df_columns df)
                 (List.filter (Example.first_is "1") (df_rows df)))
        (outcome (load_year Example.env Example.loader 2020 None None
                            None None))
  ∧ ∀ df df',
      outcome (load_year Example.env Example.loader 2020 None None
                         None None) = Ok df →
      outcome (load_year Example.env Example.loader 2020 None
                         (Some (row_filter (Example.first_is "1")))
                         None None) = Ok df' →
      ∀ r, r ∈ df_rows df' ↔ r ∈ df_rows df ∧ Example.first_is "1" r = true.
Proof.
  apply (load_year_filter_exact Example.env Example.loader 2020 None None
           None Example.csv_2020 (Example.first_is "1")).
  vm_compute. reflexivity.
Defined.

(** ** Chunked iteration *)

Section Chunked.
Context `{Pandas}.
Variable env : Env.



End Chunked.



(** ** Multi-year load, sequential path *)

Section Sequential.
Context `{Pandas}.
Variable env : Env.

Lemma for_each_outcome {A B} (f : A -> Comp B) (xs : list A) :
  outcome (for_each f xs)
  = match xs with
    | [] => Ok []
    | x :: rest =>
        result_bind (outcome (f x))
          (λ y, result_map (cons y) (outcome (for_each f rest)))
    end.
Proof.
  destruct xs as [| x rest]; [reflexivity |].
  cbn [for_each]. rewrite outcome_bind.
  destruct (outcome (f x)) as [y | e]; [| reflexivity].
  cbn [result_bind]. rewrite outcome_bind.
  destruct (outcome (for_each f rest)); reflexivity.
Qed.

Lemma for_each_load_year self years columns filter_func dtype :
  outcome (for_each (λ year, load_year env self year columns filter_func
                                       None dtype) years)
  = load_each env self years columns filter_func dtype.
Proof.
  induction years as [| year rest IH]; [reflexivity |].
  rewrite for_each_outcome, IH. reflexivity.
Qed.

Lemma load_each_Forall2 self years columns filter_func dtype dfs :
  load_each env self years columns filter_func dtype = Ok dfs →
  Forall2 (λ year df,
             outcome (load_year env self year columns filter_func None
                                dtype) = Ok df) years dfs.
Proof.
  revert dfs. induction years as [| year rest IH]; intros dfs Hdfs.
  - injection Hdfs as <-. constructor.
  - cbn [load_each] in Hdfs.
    destruct (outcome (load_year env self year columns filter_func None
                                 dtype)) as [df |] eqn:Hdf;
      [| discriminate].
    cbn [result_bind] in Hdfs.
    destruct (load_each env self rest columns filter_func dtype)
      as [dfs' |]; [| discriminate].
    injection Hdfs as <-. constructor; auto.
Qed.

Lemma load_years_sequential_outcome self years columns filter_func dtype
    sched :
  outcome (load_years env self years columns filter_func false dtype sched)
  = load_each_then_concat env self years columns filter_func dtype.
Proof.
  unfold load_years, load_each_then_concat. cbn [andb].
  rewrite bind_print. cbn [outcome snd].
  rewrite outcome_bind, for_each_load_year.
  destruct (load_each env self years columns filter_func dtype)
    as [dfs | e]; [| reflexivity].
  cbn [result_bind]. rewrite outcome_bind, outcome_lift.
  destruct (concat_ignore_index dfs) as [r | e]; [| reflexivity].
  cbn [result_bind]. rewrite bind_print. reflexivity.
Qed.

(** With nothing to load there is nothing to concatenate: pandas
    refuses, on either setting of [parallel]. *)
Lemma load_years_nil self columns filter_func parallel dtype sched :
  ConcatContract →
  outcome (load_years env self [] columns filter_func parallel dtype sched)
  = Raise (Exn ValueError "No objects to concatenate").
Proof.
  intros (Hnil & _). unfold load_years.
  replace (parallel && (1 <? length (@nil Z))%nat) with false
    by (destruct parallel; reflexivity).
  rewrite bind_print. cbn [outcome snd for_each].
  rewrite bind_ret, outcome_bind, outcome_lift, Hnil. reflexivity.
Qed.

(** C3. [load_years(years, parallel=False)] is: load each year with
    [load_year] in request order (the first failure ends it), then
    concatenate the results in that order.  When it returns a table,
    every year was loaded, the table has one row per loaded row under
    the fresh labels [0, 1, ...], and, the yearly tables having the same
    columns, its rows are theirs in request order.  The pandas side of
    it is [ConcatContract]. *)
Theorem load_years_sequential_order self years columns filter_func dtype
    sched :
  ConcatContract →
  outcome (load_years env self years columns filter_func false dtype sched)
  = load_each_then_concat env self years columns filter_func dtype
  ∧ ∀ result,
      outcome (load_years env self years columns filter_func false dtype
                          sched) = Ok result →
      ∃ dfs,
        Forall2 (λ year df,
                   outcome (load_year env self year columns filter_func
                                      None dtype) = Ok df) years dfs
        ∧ concat_ignore_index dfs = Ok result
        ∧ df_len result = length (concat (map df_rows dfs))
        ∧ df_labels result = range_index (df_len result)
        ∧ ∀ names, Forall (λ d, df_columns d = names) dfs →
            df_columns result = names
            ∧ df_values result = concat (map df_values dfs).
Proof.
  intros Hcontract.
  split; [apply load_years_sequential_outcome |].
  intros result. rewrite load_years_sequential_outcome.
  unfold load_each_then_concat.
  destruct (load_each env self years columns filter_func dtype)
    as [dfs | e] eqn:Hdfs; [| discriminate].
  cbn [result_bind]. intros Hcat.
  destruct Hcontract as (Hnil & Hfresh & Hsame).
  exists dfs. split; [exact (load_each_Forall2 _ _ _ _ _ _ Hdfs) |].
  split; [exact Hcat |].
  destruct (Hfresh dfs result Hcat) as [Hlen Hlabels].
  split; [exact Hlen |]. split; [exact Hlabels |].
  intros names Hnames.
  assert (dfs ≠ []) as Hne by (intros ->; congruence).
  rewrite (Hsame dfs names Hne Hnames) in Hcat. injection Hcat as <-.
  split; [reflexivity |].
  exact (relabel_values (concat (map df_values dfs))).
Qed.
End Sequential.

(** C3 at the years 2020 and 2021 of the example directory. *)
Lemma load_years_sequential_order_witness :
  outcome (load_years Example.env Example.loader [2020; 2021] None None
                      false None [])
  = Ok (mkDataFrame ["a"; "b"]
          [(0, [CStr "1"; CStr "2"]); (1, [CStr "3"; CNaN]);
           (2, [CStr "5"; CStr "6"]); (3, [CStr "7"; CStr "8"])]).
Proof.
  rewrite (proj1 (load_years_sequential_order Example.env Example.loader
                    [2020; 2021] None None None []
                    MiniPandasFacts.mini_concat_contract)).
  vm_compute. reflexivity.
Defined.

(** ** Multi-year load, parallel path *)

Section Parallel.
Context `{Pandas}.
Variable env : Env.

Lemma for_each_submit self columns filter_func dtype years :
  Forall (λ y, is_Some (file_content env (year_path self y))) years →
  for_each (submit env self columns filter_func dtype) years
  = ([], Ok (map (future_of env self columns filter_func dtype) years)).
Proof.
  induction 1 as [| year rest [content Hc] _ IH]; [reflexivity |].
  cbn [for_each map]. unfold submit at 1.
  rewrite (get_file_path_found env _ _ _ Hc), !bind_lift_ok, bind_ret,
          IH.
  reflexivity.
Qed.

Lemma omap_lookup_seq {A} (pre l : list A) :
  omap (λ i, (pre ++ l)%list !! i) (seq (length pre) (length l)) = l.
Proof.
  revert pre. induction l as [| x l IH]; intros pre; [reflexivity |].
  cbn [length seq]. simpl omap.
  rewrite list_lookup_middle by reflexivity.
  f_equal. specialize (IH (pre ++ [x])%list).
  rewrite <- app_assoc, length_app in IH. cbn [length app] in IH.
  rewrite Nat.add_1_r in IH. exact IH.
Qed.

(** Whatever the completion order, [as_completed] hands out the
    submitted futures, each once. *)
Lemma as_completed_permutation sched futures :
  sched ≡ₚ seq 0 (length futures) →
  as_completed sched futures ≡ₚ futures.
Proof.
  intros Hperm. unfold as_completed. rewrite Hperm.
  pose proof (omap_lookup_seq [] futures) as Hall.
  cbn [app length] in Hall. rewrite Hall. reflexivity.
Qed.

(** The collecting loop stops at the first failed future in completion
    order: it reports that future's year and re-raises its exception;
    what was collected before is dropped. *)
Lemma collect_first_failure completed dfs :
  Exists (λ fut, is_ok (fut_result fut) = false) completed →
  ∃ before fut after e,
    completed = (before ++ fut :: after)%list
    ∧ Forall (λ f, is_ok (fut_result f) = true) before
    ∧ fut_result fut = Raise e
    ∧ collect completed dfs = ([error_report (fut_year fut) e], Raise e).
Proof.
  revert dfs. induction completed as [| fut rest IH]; intros dfs Hex.
  - inversion Hex.
  - destruct (fut_result fut) as [df | e] eqn:Hres.
    + destruct (IH (dfs ++ [df])%list) as (before & f & after & e & -> &
                                            Hbefore & Hf & Hcollect).
      { inversion Hex as [? ? Hhead | ? ? Htail]; subst; [| exact Htail].
        rewrite Hres in Hhead. discriminate. }
      exists (fut :: before), f, after, e.
      split; [reflexivity |].
      split; [constructor; [rewrite Hres; reflexivity | exact Hbefore] |].
      split; [exact Hf |].
      cbn [collect app]. rewrite Hres. exact Hcollect.
    + exists [], fut, rest, e.
      split; [reflexivity |]. split; [constructor |].
      split; [exact Hres |].
      cbn [collect]. rewrite Hres. reflexivity.
Qed.

(** A job whose filter function can be pickled gives the future what
    the worker gives; a job that cannot be pickled fails its future
    whatever the worker would have done. *)
Lemma future_of_transferable self columns filter_func dtype year :
  pickling_failure env filter_func = None →
  fut_result (future_of env self columns filter_func dtype year)
  = outcome (_load_year_worker env (year_path self year) year columns
                               filter_func dtype).
Proof.
  intros Hpickle. unfold future_of, run_job. rewrite Hpickle. reflexivity.
Qed.

Lemma worker_failure_fails_future self columns filter_func dtype year :
  is_ok (outcome (_load_year_worker env (year_path self year) year columns
                                    filter_func dtype)) = false →
  is_ok (fut_result (future_of env self columns filter_func dtype year))
  = false.
Proof.
  intros Hworker. unfold future_of, run_job.
  destruct (pickling_failure env filter_func); [reflexivity | exact Hworker].
Qed.

(** C4. In a parallel load of more than one year whose files are all
    found, if the job of at least one year fails (its worker raises,
    or the job cannot be sent to a worker), then whatever the completion
    order the operation prints the report for a year whose job failed
    (the first failure in completion order) and raises that job's
    exception: no table is returned, so the tables of the workers that
    completed are dropped.  When the filter function can be pickled the
    exception is the one the worker of that year raised. *)
Theorem parallel_failure_discards self years columns filter_func dtype
    sched :
  (1 < length years)%nat →
  sched ≡ₚ seq 0 (length years) →
  Forall (λ y, is_Some (file_content env (year_path self y))) years →
  Exists (λ y, is_ok (fut_result (future_of env self columns filter_func
                                            dtype y)) = false)
         years →
  ∃ year e,
    year ∈ years
    ∧ fut_result (future_of env self columns filter_func dtype year)
      = Raise e
    ∧ load_years env self years columns filter_func true dtype sched
      = (["Loading " ++ Py.str_int (Z.of_nat (length years))
          ++ " years in parallel..."; error_report year e], Raise e)
    ∧ (pickling_failure env filter_func = None →
       outcome (_load_year_worker env (year_path self year) year columns
                                  filter_func dtype) = Raise e).
Proof.
  intros Hlen Hperm Hfiles Hfail.
  set (futures := map (future_of env self columns filter_func dtype) years).
  assert (Exists (λ fut, is_ok (fut_result fut) = false)
                 (as_completed sched futures)) as Hex.
  { rewrite as_completed_permutation
      by (subst futures; rewrite length_map; exact Hperm).
    subst futures. change (map ?f ?l) with (f <$> l).
    apply Exists_fmap. exact Hfail. }
  destruct (collect_first_failure _ [] Hex)
    as (before & fut & after & e & Hsplit & _ & Hres & Hcollect).
  assert (fut ∈ futures) as Hin.
  { rewrite <- (as_completed_permutation sched futures)
      by (subst futures; rewrite length_map; exact Hperm).
    rewrite Hsplit. set_solver. }
  subst futures. apply list_elem_of_In, in_map_iff in Hin.
  destruct Hin as (year & <- & Hyear).
  assert (fut_year (future_of env self columns filter_func dtype year)
          = year) as Hfut_year.
  { unfold future_of, run_job.
    destruct (pickling_failure env filter_func); reflexivity. }
  rewrite Hfut_year in Hcollect.
  exists year, e. split; [apply list_elem_of_In, Hyear |].
  split; [exact Hres |]. split.
  - unfold load_years.
    replace (1 <? length years)%nat with true
      by (symmetry; apply Nat.ltb_lt; exact Hlen).
    cbn [andb]. rewrite bind_print. unfold _load_years_parallel.
    replace (Nat.min (length years) (Pos.to_nat (cpu_count env)) <=? 0)%nat
      with false by (symmetry; apply Nat.leb_gt; lia).
    rewrite (for_each_submit _ _ _ _ _ Hfiles).
    change (@pair (list string) (result (list Future)) [] (Ok ?a))
      with (lift (Ok a)).
    rewrite bind_lift_ok, Hcollect. reflexivity.
  - intros Hpickle.
    rewrite <- (future_of_transferable _ _ _ _ _ Hpickle). exact Hres.
Qed.
End Parallel.

(** C4 at the years 2020, 2019 (an empty file) and 2021 of the example
    directory, the workers finishing in the order 2021, 2019, 2020. *)
Lemma parallel_failure_discards_witness :
  ∃ year e,
    year ∈ [2020; 2019; 2021]
    ∧ fut_result (future_of Example.env Example.loader None None None year)
      = Raise e
    ∧ load_years Example.env Example.loader [2020; 2019; 2021] None None
                 true None [2; 1; 0]%nat
      = (["Loading " ++ Py.str_int (Z.of_nat (length [2020; 2019; 2021]))
          ++ " years in parallel..."; error_report year e], Raise e)
    ∧ (pickling_failure Example.env None = None →
       outcome (_load_year_worker Example.env
                  (year_path Example.loader year) year None None None)
       = Raise e).
Proof.
  apply (parallel_failure_discards Example.env Example.loader
           [2020; 2019; 2021] None None None [2; 1; 0]%nat).
  - cbn. lia.
  - symmetry. exact (Permutation_rev [0; 1; 2]%nat).
  - repeat constructor; vm_compute; eauto.
  - apply Exists_cons_tl, Exists_cons_hd. vm_compute. reflexivity.
Defined.

(** ** The convenience entry point *)

Section QuickLoad.
Context `{Pandas}.
Variable env : Env.

(** C5. Once the loader is constructed on the given directory,
    [quick_load] is [load_all] for the string ['all'], [load_year] for
    an int and [load_years] for a list, each on that loader with the
    columns and the filter passed on and every other option at its
    default; for any other argument (a value of another type such as a
    float, or another string) it prints nothing and raises the
    [ValueError]. *)
Theorem quick_load_dispatch columns filter_func dir sched loader :
  __init__ env dir = Ok loader →
  quick_load env (YearsStr "all") columns filter_func dir sched
  = load_all env loader columns filter_func true None sched
  ∧ (∀ y, quick_load env (YearsInt y) columns filter_func dir sched
          = load_year env loader y columns filter_func None None)
  ∧ (∀ ys, quick_load env (YearsList ys) columns filter_func dir sched
           = load_years env loader ys columns filter_func true None sched)
  ∧ (∀ years,
       is_all years = false → isinstance_int years = None →
       isinstance_list years = None →
       quick_load env years columns filter_func dir sched
       = ([], Raise invalid_years))
  ∧ (∀ type_name,
       quick_load env (YearsOther type_name) columns filter_func dir sched
       = ([], Raise invalid_years)).
Proof.
  intros Hinit.
  assert (∀ years,
            quick_load env years columns filter_func dir sched
            = if is_all years
              then load_all env loader columns filter_func true None sched
              else match isinstance_int years with
                   | Some y => load_year env loader y columns filter_func
                                         None None
                   | None =>
                       match isinstance_list years with
                       | Some ys => load_years env loader ys columns
                                               filter_func true None sched
                       | None => raise invalid_years
                       end
                   end) as Hdispatch.
  { intros years. unfold quick_load. rewrite Hinit. apply bind_lift_ok. }
  split; [apply Hdispatch |]. split; [intros y; apply Hdispatch |].
  split; [intros ys; apply Hdispatch |].
  split; [| intros t; apply Hdispatch].
  intros years Hall Hint Hlist.
  rewrite Hdispatch, Hall, Hint, Hlist. reflexivity.
Qed.
End QuickLoad.

(** C5 on the example directory. *)
Lemma quick_load_dispatch_witness :
  quick_load Example.env (YearsOther "float") None None (Some "/data") []
  = ([], Raise invalid_years).
Proof.
  apply (quick_load_dispatch Example.env None None (Some "/data") []
           (mkLoader "/data" [2019; 2020; 2021])).
  vm_compute. reflexivity.
Defined.

(** ** Sampling *)

Section Sampling.
Context `{Pandas}.
Variable env : Env.

Lemma sample_year_outcome self year n columns content :
  file_content env (year_path self year) = Some content →
  outcome (sample_year env self year n columns)
  = result_bind (read_csv content columns None None)
      (λ df, if n <? Z.of_nat (df_len df) then df_sample df n 42
             else Ok df).
Proof.
  intros Hc. unfold sample_year.
  rewrite (get_file_path_found env _ _ _ Hc), bind_lift_ok, bind_print.
  cbn [outcome snd]. rewrite outcome_bind, outcome_lift.
  rewrite (pd_read_csv_found _ _ _ _ _ _ Hc).
  destruct (read_csv content columns None None) as [df | e];
    [| reflexivity].
  cbn [result_bind]. rewrite outcome_bind.
  destruct (n <? Z.of_nat (df_len df)).
  - rewrite outcome_lift.
    destruct (df_sample df n 42) as [s | e]; [| reflexivity].
    cbn [result_bind]. rewrite bind_print. reflexivity.
  - cbn [ret outcome snd result_bind]. rewrite bind_print. reflexivity.
Qed.
End Sampling.

Section SamplingClaim.
Context `{Pandas}.

(** C6. For a year whose file exists and reads as the table [df]:
    [sample_year(year, n)] returns [df] unchanged when [df] has at most
    [n] rows; otherwise (for a count [n >= 0]) it returns
    [df.sample(n, random_state=42)], which has exactly [n] rows, all of
    them rows of [df], none taken twice; and the sample is a function of
    the table and [n] alone, so another call that reads the same table
    (in any directory, at any time) returns the same rows.  The pandas
    side of it is [SampleContract]. *)
Theorem sample_year_fixed_seed (env : Env) self year (n : Z) columns
    content df :
  SampleContract →
  file_content env (year_path self year) = Some content →
  read_csv content columns None None = Ok df →
  (Z.of_nat (df_len df) ≤ n →
     outcome (sample_year env self year n columns) = Ok df)
  ∧ (0 ≤ n < Z.of_nat (df_len df) →
       ∃ s, outcome (sample_year env self year n columns) = Ok s
            ∧ df_sample df n 42 = Ok s
            ∧ df_columns s = df_columns df
            ∧ Z.of_nat (df_len s) = n
            ∧ df_rows s ⊆+ df_rows df)
  ∧ (∀ (env' : Env) self' year' content',
       file_content env' (year_path self' year') = Some content' →
       read_csv content' columns None None = Ok df →
       outcome (sample_year env' self' year' n columns)
       = outcome (sample_year env self year n columns)).
Proof.
  intros Hcontract Hc Hread.
  rewrite (sample_year_outcome env _ _ _ _ _ Hc), Hread.
  cbn [result_bind]. split; [| split].
  - intros Hn. destruct (Z.ltb_spec n (Z.of_nat (df_len df))); [lia |].
    reflexivity.
  - intros Hn. destruct (Z.ltb_spec n (Z.of_nat (df_len df))); [| lia].
    destruct (Hcontract df n 42 ltac:(lia))
      as (s & Hs & Hcols & Hlen & Hsub).
    exists s. rewrite Hs. repeat split; assumption.
  - intros env' self' year' content' Hc' Hread'.
    rewrite (sample_year_outcome env' _ _ _ _ _ Hc'), Hread'.
    reflexivity.
Qed.
End SamplingClaim.

(** C6 at the 2020 file of the example directory, two rows out of three. *)
Lemma sample_year_fixed_seed_witness :
  ∃ s, outcome (sample_year Example.env Example.loader 2020 2 None) = Ok s
       ∧ Z.of_nat (df_len s) = 2
       ∧ df_rows s ⊆+ [(0, [CStr "1"; CStr "2"]); (1, [CStr "3"; CNaN]);
                       (2, [CStr "5"; CStr "6"])].
Proof.
  destruct (sample_year_fixed_seed Example.env Example.loader 2020 2 None
              Example.csv_2020
              (mkDataFrame ["a"; "b"]
                 [(0, [CStr "1"; CStr "2"]); (1, [CStr "3"; CNaN]);
                  (2, [CStr "5"; CStr "6"])])
              MiniPandasFacts.mini_sample_contract)
    as (_ & Hsample & _).
  - vm_compute. reflexivity.
  - vm_compute. reflexivity.
  - destruct Hsample as (s & Hs & _ & _ & Hlen & Hsub).
    + cbn. lia.
    + exists s. repeat split; assumption.
Defined.

(** ** A year with no file *)

Section MissingYear.
Context `{Pandas}.
Variable env : Env.

(** Submitting stops at the first year of the list that has no file. *)
Lemma for_each_submit_missing self columns filter_func dtype years :
  Exists (missing env self) years →
  ∃ y, y ∈ years ∧ missing env self y
       ∧ for_each (submit env self columns filter_func dtype) years
         = ([], Raise (no_data_file self y)).
Proof.
  induction years as [| year rest IH]; intros Hex; [inversion Hex |].
  cbn [for_each]. unfold submit at 1.
  destruct (get_file_path_cases env self year)
    as [(content & Hc & ->) | (Hc & ->)].
  - destruct IH as (y & Hy & Hmiss & Hrest).
    { inversion Hex as [? ? Hhead | ? ? Htail]; subst; [| exact Htail].
      unfold missing in Hhead. congruence. }
    exists y. split; [set_solver |]. split; [exact Hmiss |].
    rewrite !bind_lift_ok, bind_ret, Hrest. reflexivity.
  - exists year. split; [set_solver |]. split; [exact Hc |]. reflexivity.
Qed.

(** So does the sequential loop, as long as the years that have a file
    load. *)
Lemma load_each_missing self columns filter_func dtype years :
  Exists (missing env self) years →
  (∀ y, y ∈ years → ¬ missing env self y →
        is_ok (outcome (load_year env self y columns filter_func None
                                  dtype)) = true) →
  ∃ y, y ∈ years ∧ missing env self y
       ∧ load_each env self years columns filter_func dtype
         = Raise (no_data_file self y).
Proof.
  induction years as [| year rest IH]; intros Hex Hok; [inversion Hex |].
  cbn [load_each].
  destruct (file_content env (year_path self year)) as [c |] eqn:Hc.
  - destruct IH as (y & Hy & Hmiss & Hrest).
    { inversion Hex as [? ? Hhead | ? ? Htail]; subst; [| exact Htail].
      unfold missing in Hhead. congruence. }
    { intros y Hy. apply Hok. set_solver. }
    exists y. split; [set_solver |]. split; [exact Hmiss |].
    specialize (Hok year ltac:(set_solver)
                    ltac:(unfold missing; congruence)).
    destruct (outcome (load_year env self year columns filter_func None
                                 dtype)); [| discriminate].
    cbn [result_bind]. rewrite Hrest. reflexivity.
  - exists year. split; [set_solver |]. split; [exact Hc |].
    rewrite (load_year_missing env _ _ _ _ _ _ Hc). reflexivity.
Qed.
End MissingYear.

Section MissingYearClaim.
Context `{Pandas}.

(** C7. Let the loader be constructed on a directory (file system
    [env0]) and let [year] have no file when the operation runs (file
    system [env]).  Then [load_year], [sample_year], [get_year_info],
    [get_column_names(year)], [load_years([year])] and the first [next]
    of [iter_year_chunks] raise the [FileNotFoundError] whose message
    names the year and lists exactly the years found at construction,
    and those that are not [load_years] print nothing before.  On a
    longer list that holds the year, [load_years] raises that error for
    the first year of the list with no file: always on the parallel path
    (every path is resolved before a result is collected), and on the
    sequential path when the listed years that do have a file load. *)
Theorem missing_year_file_not_found (env0 env : Env) dir self year :
  __init__ env0 dir = Ok self →
  missing env self year →
  let error_of y :=
    Exn FileNotFoundError
        ("No data file found for year " ++ Py.str_int y ++ ". "
         ++ "Available years: "
         ++ Py.repr_int_list (_get_available_years env0 (data_dir self)))
  in
  (∀ columns filter_func nrows dtype,
     load_year env self year columns filter_func nrows dtype
     = ([], Raise (error_of year)))
  ∧ (∀ n columns,
       sample_year env self year n columns = ([], Raise (error_of year)))
  ∧ get_year_info env self year = ([], Raise (error_of year))
  ∧ get_column_names env self (Some year) = ([], Raise (error_of year))
  ∧ (∀ chunksize columns dtype,
       gen_next env (iter_year_chunks self year chunksize columns dtype)
       = (([], Raise (error_of year)), GenFinished))
  ∧ (∀ columns filter_func parallel dtype sched,
       outcome (load_years env self [year] columns filter_func parallel
                           dtype sched)
       = Raise (error_of year))
  ∧ (∀ years columns filter_func parallel dtype sched,
       year ∈ years →
       parallel && (1 <? length years)%nat = true
       ∨ (∀ y, y ∈ years → ¬ missing env self y →
               is_ok (outcome (load_year env self y columns filter_func
                                         None dtype)) = true) →
       ∃ y, y ∈ years ∧ missing env self y
            ∧ outcome (load_years env self years columns filter_func
                                  parallel dtype sched)
              = Raise (error_of y)).
Proof.
  intros Hinit Hmiss error_of.
  assert (∀ y, no_data_file self y = error_of y) as Herr.
  { intros y. unfold no_data_file, error_of, __init__ in *.
    destruct (negb _) in Hinit; [discriminate |].
    injection Hinit as <-. reflexivity. }
  pose proof (get_file_path_missing env self year Hmiss) as Hpath.
  rewrite Herr in Hpath.
  assert (∀ years columns filter_func parallel dtype sched,
          year ∈ years →
          parallel && (1 <? length years)%nat = true
          ∨ (∀ y, y ∈ years → ¬ missing env self y →
                  is_ok (outcome (load_year env self y columns filter_func
                                            None dtype)) = true) →
          ∃ y, y ∈ years ∧ missing env self y
               ∧ outcome (load_years env self years columns filter_func
                                     parallel dtype sched)
                 = Raise (error_of y)) as Hlist.
{ intros years columns filter_func parallel dtype sched Hin Hcase.
  assert (Exists (missing env self) years) as Hex
    by (apply Exists_exists; eauto).
  unfold load_years.
  destruct (parallel && (1 <? length years)%nat) eqn:Hpar.
  - destruct (for_each_submit_missing env self columns filter_func
                dtype years Hex) as (y & Hy & Hymiss & Hsubmit).
    exists y. split; [exact Hy |]. split; [exact Hymiss |].
    apply andb_prop in Hpar as [_ Hlen%Nat.ltb_lt].
    rewrite bind_print. unfold _load_years_parallel.
    replace (Nat.min (length years) (Pos.to_nat (cpu_count env)) <=? 0)%nat
      with false by (symmetry; apply Nat.leb_gt; lia).
    rewrite Hsubmit, <- Herr. reflexivity.
  - destruct Hcase as [? | Hok]; [discriminate |].
    destruct (load_each_missing env self columns filter_func dtype
                years Hex Hok) as (y & Hy & Hymiss & Heach).
    exists y. split; [exact Hy |]. split; [exact Hymiss |].
    rewrite bind_print. cbn [outcome snd].
    rewrite outcome_bind, for_each_load_year, Heach, <- Herr.
    reflexivity. }
split; [| split; [| split; [| split; [| split; [| split]]]]].
- intros. unfold load_year. rewrite Hpath. reflexivity.
- intros. unfold sample_year. rewrite Hpath. reflexivity.
- unfold get_year_info. rewrite Hpath. reflexivity.
- unfold get_column_names. rewrite bind_ret, Hpath. reflexivity.
- intros. unfold iter_year_chunks, gen_next. rewrite Hpath. reflexivity.
- intros columns filter_func parallel dtype sched.
  destruct (Hlist [year] columns filter_func parallel dtype sched)
    as (y & Hy & _ & Hout).
  + set_solver.
  + right. intros y Hy Hnot. apply list_elem_of_singleton in Hy as ->.
    contradiction.
  + apply list_elem_of_singleton in Hy as ->. exact Hout.
- exact Hlist.
Qed.
End MissingYearClaim.

(** C7 for the year 2022 of the example directory. *)
Lemma missing_year_file_not_found_witness :
  get_year_info Example.env Example.loader 2022
  = ([], Raise (Exn FileNotFoundError
                    "No data file found for year 2022. Available years: [2019, 2020, 2021]")).
Proof.
  apply (missing_year_file_not_found Example.env Example.env (Some "/data")
           Example.loader 2022).
  - vm_compute. reflexivity.
  - vm_compute. reflexivity.
Defined.

(** ** Year metadata *)






Section Metadata.
Context `{Pandas}.
Variable env : Env.

Lemma get_column_names_year self year content :
  file_content env (year_path self year) = Some content →
  get_column_names env self (Some year)
  = ([], result_map df_columns (read_csv content None (Some 0) None)).
Proof.
  intros Hc. unfold get_column_names.
  rewrite bind_ret, (get_file_path_found env _ _ _ Hc), bind_lift_ok.
  rewrite (pd_read_csv_found _ _ _ _ _ _ Hc).
  destruct (read_csv content None (Some 0) None); reflexivity.
Qed.

Lemma get_year_info_decoded self year content :
  file_content env (year_path self year) = Some content →
  decodes (encoding env) content = true →
  get_year_info env self year
  = bind (get_column_names env self (Some year))
         (λ columns,
            ret (mkYearInfo year (path_str (year_path self year))
                   (file_size_mb_hundredths (st_size content))
                   (Z.of_nat (line_count content) - 1)
                   (length columns))).
Proof.
  intros Hc Hdec. unfold get_year_info, decode_error.
  rewrite (get_file_path_found env _ _ _ Hc), bind_lift_ok, Hc, Hdec.
  reflexivity.
Qed.

Lemma get_year_info_undecoded self year content :
  file_content env (year_path self year) = Some content →
  decodes (encoding env) content = false →
  ∃ msg, get_year_info env self year
         = ([], Raise (Exn UnicodeDecodeError msg)).
Proof.
  intros Hc Hdec. unfold get_year_info, decode_error.
  rewrite (get_file_path_found env _ _ _ Hc), bind_lift_ok, Hc, Hdec.
  eexists. reflexivity.
Qed.

End Metadata.



(** ** Column discovery with no year given *)

Section DefaultYear.
Context `{Pandas}.

Lemma init_available_years (env0 : Env) dir self :
  __init__ env0 dir = Ok self →
  available_years self = _get_available_years env0 (data_dir self).
Proof.
  unfold __init__. destruct (negb _); [discriminate |].
  intros [= <-]. reflexivity.
Qed.

(** With years available, the default is the last, that is the largest,
    of them. *)
Lemma get_column_names_default (env : Env) self y :
  Py.last_item (available_years self) = Some y →
  get_column_names env self None = get_column_names env self (Some y).
Proof. intros Hlast. unfold get_column_names. rewrite Hlast. reflexivity. Qed.

End DefaultYear.


(** ** The two not-found failures *)

Section NotFound.
Context `{Pandas}.

(** C10. When construction fails for an absent data directory and when
    file resolution fails for a year with no file, the exception raised
    is of the same class, [FileNotFoundError], in both cases; the two
    differ by their message only. *)
Theorem not_found_errors_same_class (env0 env : Env) dir self year
    e_dir e_file :
  __init__ env0 dir = Raise e_dir →
  _get_file_path env self year = Raise e_file →
  exc_type e_dir = FileNotFoundError
  ∧ exc_type e_file = FileNotFoundError
  ∧ exc_type e_dir = exc_type e_file
  ∧ exc_msg e_dir ≠ exc_msg e_file.
Proof.
  unfold __init__, _get_file_path.
  destruct (negb (dir_exists _ _)); [| discriminate].
  destruct (negb (path_exists _ _)); [| discriminate].
  intros [= <-] [= <-]. cbn.
  repeat split; try reflexivity. discriminate.
Qed.
End NotFound.

(** C10 on the example directory: a loader on a directory that does not
    exist, and the year 2022. *)
Lemma not_found_errors_same_class_witness :
  exc_type (Exn FileNotFoundError "Data directory not found: /nowhere")
  = exc_type (no_data_file Example.loader 2022).
Proof.
  apply (not_found_errors_same_class Example.env Example.env
           (Some "/nowhere") Example.loader 2022).
  - vm_compute. reflexivity.
  - vm_compute. reflexivity.
Defined.

(* ===================================================================== *)
(** * Further properties of the module *)
(* ===================================================================== *)

(** ** Printing and parsing a year *)

Module PyFacts.
Import Py.

Lemma uint_chars_digits d : Forall is_digit (uint_chars d).
Proof.
  unfold uint_chars.
  induction d; cbn; constructor; try assumption; unfold is_digit; cbn; eauto.
Qed.

Lemma digits_val_acc d acc :
  digits_val (Z.pos acc) (uint_chars d) = Some (Z.pos (Pos.of_uint_acc d acc)).
Proof.
  unfold uint_chars. revert acc.
  induction d; intros acc; cbn [NilEmpty.string_of_uint list_ascii_of_string
                                digits_val]; [reflexivity | ..];
    (change (digit_val _) with (Some 0)
     || change (digit_val _) with (Some 1)
     || change (digit_val _) with (Some 2)
     || change (digit_val _) with (Some 3)
     || change (digit_val _) with (Some 4)
     || change (digit_val _) with (Some 5)
     || change (digit_val _) with (Some 6)
     || change (digit_val _) with (Some 7)
     || change (digit_val _) with (Some 8)
     || change (digit_val _) with (Some 9));
    cbn [Pos.of_uint_acc]; rewrite <- IHd; f_equal; lia.
Qed.

Lemma digits_val_uint d :
  digits_val 0 (uint_chars d) = Some (Z.of_N (Pos.of_uint d)).
Proof.
  unfold uint_chars.
  induction d; cbn [NilEmpty.string_of_uint list_ascii_of_string digits_val
                    Pos.of_uint]; [reflexivity | exact IHd | ..];
    (change (digit_val _) with (Some 1)
     || change (digit_val _) with (Some 2)
     || change (digit_val _) with (Some 3)
     || change (digit_val _) with (Some 4)
     || change (digit_val _) with (Some 5)
     || change (digit_val _) with (Some 6)
     || change (digit_val _) with (Some 7)
     || change (digit_val _) with (Some 8)
     || change (digit_val _) with (Some 9));
    cbn [Z.of_N]; rewrite <- (digits_val_acc d); reflexivity.
Qed.

Lemma uint_chars_nil d : uint_chars d = [] → d = Decimal.Nil.
Proof. destruct d; [reflexivity | discriminate ..]. Qed.

Lemma is_digit_range c :
  is_digit c → (48 ≤ nat_of_ascii c ≤ 57)%nat.
Proof.
  unfold is_digit, digit_val. intros [v Hv].
  destruct (Nat.leb_spec 48 (nat_of_ascii c));
    destruct (Nat.leb_spec (nat_of_ascii c) 57); cbn in Hv;
    try discriminate; lia.
Qed.

Lemma is_digit_not_space c : is_digit c → is_space c = false.
Proof.
  intros Hd%is_digit_range. unfold is_space.
  destruct (Nat.leb_spec 9 (nat_of_ascii c));
    destruct (Nat.leb_spec (nat_of_ascii c) 13);
    destruct (Nat.eqb_spec (nat_of_ascii c) 32); cbn; try reflexivity; lia.
Qed.

Lemma is_digit_not c (other : ascii) :
  is_digit c → (nat_of_ascii other < 48 ∨ 57 < nat_of_ascii other)%nat →
  Ascii.eqb c other = false.
Proof.
  intros Hd%is_digit_range Hother.
  destruct (Ascii.eqb_spec c other) as [-> | _]; [lia | reflexivity].
Qed.

(** Stripping changes nothing in a text that neither starts nor ends
    with white space. *)
Lemma strip_id (l : list ascii) :
  (∀ c, head l = Some c → is_space c = false) →
  (∀ c, last l = Some c → is_space c = false) →
  strip l = l.
Proof.
  intros Hhead Hlast. unfold strip.
  assert (lstrip l = l) as ->.
  { destruct l as [| c l]; [reflexivity |].
    cbn. rewrite (Hhead c); reflexivity. }
  destruct (rev l) as [| c r] eqn:Hrev.
  - apply (f_equal (@rev ascii)) in Hrev. rewrite rev_involutive in Hrev.
    subst l. reflexivity.
  - assert (l = (rev r ++ [c])%list) as Hl.
    { rewrite <- (rev_involutive l), Hrev. reflexivity. }
    cbn [lstrip]. rewrite (Hlast c).
    + rewrite <- Hrev. apply rev_involutive.
    + rewrite Hl. apply last_snoc.
Qed.

Lemma last_Forall {A} (P : A -> Prop) (l : list A) x :
  Forall P l → last l = Some x → P x.
Proof.
  intros Hall Hlast. rewrite Forall_forall in Hall.
  apply Hall. apply last_Some_elem_of, Hlast.
Qed.

Lemma int_of_ascii_str_int (z : Z) :
  int_of_ascii (list_ascii_of_string (str_int z)) = Some z.
Proof.
  unfold int_of_ascii, str_int. destruct z as [| p | p]; [reflexivity | |].
  - cbn [Z.to_int NilEmpty.string_of_int].
    fold (uint_chars (Pos.to_uint p)).
    pose proof (uint_chars_digits (Pos.to_uint p)) as Hdig.
    pose proof (digits_val_uint (Pos.to_uint p)) as Hval.
    rewrite DecimalPos.Unsigned.of_to in Hval.
    destruct (uint_chars (Pos.to_uint p)) as [| c rest] eqn:Hchars.
    { apply uint_chars_nil in Hchars.
      destruct (DecimalPos.Unsigned.to_uint_nonnil p Hchars). }
    rewrite strip_id.
    + inversion Hdig as [| ? ? Hc _]; subst.
      rewrite (is_digit_not c "-"%char Hc), (is_digit_not c "+"%char Hc)
        by (left; apply Nat.ltb_lt; reflexivity).
      exact Hval.
    + intros c' [= <-]. apply is_digit_not_space.
      inversion Hdig; assumption.
    + intros c' Hc'. apply is_digit_not_space.
      exact (last_Forall _ _ _ Hdig Hc').
  - cbn [Z.to_int NilEmpty.string_of_int list_ascii_of_string].
    fold (uint_chars (Pos.to_uint p)).
    pose proof (uint_chars_digits (Pos.to_uint p)) as Hdig.
    pose proof (digits_val_uint (Pos.to_uint p)) as Hval.
    rewrite DecimalPos.Unsigned.of_to in Hval.
    destruct (uint_chars (Pos.to_uint p)) as [| c rest] eqn:Hchars.
    { apply uint_chars_nil in Hchars.
      destruct (DecimalPos.Unsigned.to_uint_nonnil p Hchars). }
    rewrite strip_id.
    + cbn [Ascii.eqb Bool.eqb]. rewrite Hval. reflexivity.
    + intros c' [= <-]. reflexivity.
    + intros c' Hc'. rewrite last_cons_cons in Hc'.
      apply is_digit_not_space. exact (last_Forall _ _ _ Hdig Hc').
Qed.

(** [str(z)] holds digits and, in front, the sign of a negative number:
    ASCII characters only. *)
Lemma str_int_ascii (z : Z) :
  is_ascii (list_ascii_of_string (str_int z)) = true.
Proof.
  assert (∀ d, is_ascii (uint_chars d) = true) as Hd.
  { intros d. unfold is_ascii. apply forallb_forall. intros c Hc.
    pose proof (uint_chars_digits d) as Hdig. rewrite Forall_forall in Hdig.
    apply list_elem_of_In, Hdig, is_digit_range in Hc.
    apply Nat.ltb_lt. lia. }
  unfold str_int. destruct z as [| p | p]; cbn [Z.to_int NilEmpty.string_of_int].
  - reflexivity.
  - apply Hd.
  - cbn [list_ascii_of_string]. unfold is_ascii. cbn [forallb].
    fold (is_ascii (list_ascii_of_string
                      (NilEmpty.string_of_uint (Pos.to_uint p)))).
    fold (uint_chars (Pos.to_uint p)). rewrite Hd. reflexivity.
Qed.

(** [int(str(z)) == z] for every int [z]. *)
Lemma int_of_str_str_int (non_ascii : string -> option Z) (z : Z) :
  int_of_str non_ascii (str_int z) = Some z.
Proof.
  unfold int_of_str. rewrite str_int_ascii. apply int_of_ascii_str_int.
Qed.

(** Never an underscore either. *)
Lemma str_int_no_underscore (z : Z) :
  Forall (λ c, c ≠ "_"%char) (list_ascii_of_string (str_int z)).
Proof.
  assert (∀ d, Forall (λ c, c ≠ "_"%char) (uint_chars d)) as Hd.
  { intros d. eapply Forall_impl; [apply uint_chars_digits |].
    intros c Hc%is_digit_range ->.
    change (nat_of_ascii "_") with 95%nat in Hc. lia. }
  unfold str_int. destruct z as [| p | p]; cbn [Z.to_int NilEmpty.string_of_int].
  - repeat constructor. discriminate.
  - apply Hd.
  - cbn [list_ascii_of_string]. constructor; [discriminate | apply Hd].
Qed.
End PyFacts.

(** ** Year files and their names *)

Lemma chars_app (a b : string) :
  list_ascii_of_string (a ++ b)
  = (list_ascii_of_string a ++ list_ascii_of_string b)%list.
Proof.
  induction a as [| c a IH]; [reflexivity |].
  simpl. rewrite IH. reflexivity.
Qed.

Lemma string_of_chars_app (a b : list ascii) :
  string_of_list_ascii (a ++ b)%list
  = string_of_list_ascii a ++ string_of_list_ascii b.
Proof.
  induction a as [| c a IH]; [reflexivity |].
  simpl. rewrite IH. reflexivity.
Qed.

Lemma string_length_chars (s : string) :
  String.length s = length (list_ascii_of_string s).
Proof.
  induction s as [| c s IH]; [reflexivity |].
  cbn [String.length list_ascii_of_string length]. rewrite IH. reflexivity.
Qed.

Lemma prefix_append (a b : string) : String.prefix a (a ++ b) = true.
Proof.
  induction a as [| c a IH]; simpl.
  - destruct b; reflexivity.
  - destruct (ascii_dec c c); [exact IH | congruence].
Qed.

Lemma ends_with_append (a suffix : string) : ends_with suffix (a ++ suffix) = true.
Proof.
  unfold ends_with.
  rewrite chars_app, rev_app_distr, string_of_chars_app.
  apply prefix_append.
Qed.

(** A piece that holds no separator is one field of [split]. *)
Lemma split_chars_field (sep : ascii) (s cur rest : list ascii) :
  Forall (λ c, c ≠ sep) s →
  Py.split_chars sep cur (s ++ sep :: rest)
  = (rev cur ++ s)%list :: Py.split_chars sep [] rest.
Proof.
  intros Hs. revert cur.
  induction Hs as [| c s Hc _ IH]; intros cur; cbn [app Py.split_chars].
  - rewrite Ascii.eqb_refl, app_nil_r. reflexivity.
  - destruct (Ascii.eqb_spec c sep) as [-> | _]; [congruence |].
    rewrite IH. cbn [rev]. rewrite <- app_assoc. reflexivity.
Qed.

(** The stem of a name [base.csv]. *)
Lemma stem_csv (name : string) (base : list ascii) :
  list_ascii_of_string name = (base ++ list_ascii_of_string ".csv")%list →
  base ≠ [] →
  stem name = string_of_list_ascii base.
Proof.
  intros Hname Hbase. unfold stem. rewrite Hname.
  destruct (base ++ list_ascii_of_string ".csv")%list as [| c0 l0] eqn:Hchars.
  { destruct base; discriminate. }
  rewrite <- Hchars.
  assert (last (base ++ list_ascii_of_string ".csv")%list = Some "v"%char)
    as -> by (rewrite last_app; reflexivity).
  cbn [list_ascii_of_string]. rewrite rev_app_distr.
  cbn [rev app drop_suffix Ascii.eqb Bool.eqb].
  destruct (rev base) as [| c r] eqn:Hrev.
  - apply (f_equal (@rev ascii)) in Hrev. rewrite rev_involutive in Hrev.
    contradiction.
  - rewrite <- Hrev, rev_involutive. reflexivity.
Qed.

(** The name [_get_file_path] builds for a year is one the directory scan
    recognises, and the scan reads the same year back from it. *)
Lemma glob_match_year_file (year : Z) : glob_match (year_file_name year) = true.
Proof.
  unfold glob_match, year_file_name.
  rewrite prefix_append.
  change ("cleaned_" ++ Py.str_int year ++ "_all.csv")
    with ("cleaned_" ++ (Py.str_int year ++ "_all.csv")).
  assert (∀ a b c : string,
            String.append a (String.append b c)
            = String.append (String.append a b) c) as Hassoc.
  { intros a b c. induction a as [| x a IH]; [reflexivity |].
    change (String x (String.append a (String.append b c))
            = String x (String.append (String.append a b) c)).
    rewrite IH. reflexivity. }
  rewrite Hassoc, ends_with_append, <- Hassoc.
  rewrite string_length_chars, !chars_app, !length_app.
  cbn [andb]. apply Nat.leb_le. cbn [list_ascii_of_string length]. lia.
Qed.

Lemma year_of_year_file (env : Env) (year : Z) :
  year_of_file env (year_file_name year) = Some year.
Proof.
  unfold year_of_file.
  set (s := list_ascii_of_string (Py.str_int year)).
  rewrite (stem_csv (year_file_name year)
             (list_ascii_of_string "cleaned_" ++ s
              ++ list_ascii_of_string "_all")%list).
  - unfold Py.split. rewrite list_ascii_of_string_of_list_ascii.
    cbn [list_ascii_of_string app Py.split_chars Ascii.eqb Bool.eqb rev].
    rewrite (split_chars_field "_"%char s [] _ (PyFacts.str_int_no_underscore year)).
    cbn [Py.split_chars Ascii.eqb Bool.eqb rev app map lookup list_lookup].
    subst s. rewrite string_of_list_ascii_of_string. cbn [mbind option_bind].
    apply PyFacts.int_of_str_str_int.
  - unfold year_file_name. rewrite !chars_app. subst s.
    rewrite <- !app_assoc. reflexivity.
  - discriminate.
Qed.

(** ** The directory scan *)

Lemma glob_year_files_elem (env : Env) (d : string) files name :
  fs env !! d = Some files →
  name ∈ glob_year_files env d
  ↔ is_Some (files !! name) ∧ glob_match name = true.
Proof.
  intros Hd. unfold glob_year_files. rewrite Hd.
  rewrite list_elem_of_In, filter_In, <- list_elem_of_In.
  change (map fst (map_to_list files)) with (fst <$> map_to_list files).
  rewrite list_elem_of_fmap. split.
  - intros [([name' content] & -> & Hin%elem_of_map_to_list) Hglob].
    split; [eexists; exact Hin | exact Hglob].
  - intros [[content Hin] Hglob]. split; [| exact Hglob].
    exists (name, content). split; [reflexivity |].
    apply elem_of_map_to_list, Hin.
Qed.

Lemma available_years_sorted (env : Env) (d : string) :
  Sorted Z.le (_get_available_years env d).
Proof. unfold _get_available_years. apply Sorted_merge_sort, _. Qed.

Lemma available_years_elem (env : Env) (d : string) files (y : Z) :
  fs env !! d = Some files →
  y ∈ _get_available_years env d
  ↔ ∃ name, is_Some (files !! name) ∧ glob_match name = true
            ∧ year_of_file env name = Some y.
Proof.
  intros Hd. unfold _get_available_years.
  rewrite merge_sort_Permutation, list_elem_of_omap.
  split.
  - intros (name & Hname & Hyear).
    rewrite merge_sort_Permutation in Hname.
    apply (glob_year_files_elem env d files name Hd) in Hname.
    exists name. tauto.
  - intros (name & Hfile & Hglob & Hyear).
    exists name. split; [| exact Hyear].
    rewrite merge_sort_Permutation.
    apply (glob_year_files_elem env d files name Hd). tauto.
Qed.

Lemma year_with_file_is_available (env : Env) dir self (year : Z) :
  __init__ env dir = Ok self →
  is_Some (file_content env (year_path self year)) →
  year ∈ available_years self.
Proof.
  intros Hinit [content Hc].
  assert (available_years self = _get_available_years env (data_dir self))
    as -> .
  { unfold __init__ in Hinit. destruct (negb _); [discriminate |].
    injection Hinit as <-. reflexivity. }
  unfold file_content, year_path in Hc. cbn [p_dir p_name] in Hc.
  destruct (fs env !! data_dir self) as [files |] eqn:Hd; [| discriminate].
  cbn in Hc.
  apply (available_years_elem env (data_dir self) files year Hd).
  exists (year_file_name year).
  split; [eexists; exact Hc |].
  split; [apply glob_match_year_file | apply year_of_year_file].
Qed.

(** X2. A loader lists every year whose file, under the name
    [_get_file_path] builds, was in the directory when the loader was
    constructed: on the file system of construction, [_get_file_path]
    succeeds only for a year among [available_years], and what it
    returns is that year's file in the data directory. *)
Theorem existing_year_is_available (env : Env) dir self (year : Z) p :
  __init__ env dir = Ok self →
  _get_file_path env self year = Ok p →
  year ∈ available_years self
  ∧ p = mkPath (data_dir self) ("cleaned_" ++ Py.str_int year ++ "_all.csv").
Proof.
  intros Hinit Hp.
  destruct (get_file_path_cases env self year)
    as [(content & Hc & Hok) | (_ & Hraise)]; [| congruence].
  split.
  - apply (year_with_file_is_available env dir self year Hinit). eauto.
  - rewrite Hok in Hp. injection Hp as <-. reflexivity.
Qed.

(** X2 for the year 2021 of the example directory. *)
Lemma existing_year_is_available_witness :
  2021 ∈ available_years Example.loader
  ∧ year_path Example.loader 2021
    = mkPath (data_dir Example.loader)
             ("cleaned_" ++ Py.str_int 2021 ++ "_all.csv").
Proof.
  apply (existing_year_is_available Example.env (Some "/data")
           Example.loader 2021).
  - vm_compute. reflexivity.
  - vm_compute. reflexivity.
Defined.

Lemma strongly_sorted_last (l : list Z) (y : Z) :
  StronglySorted Z.le l → last l = Some y → ∀ y', y' ∈ l → y' ≤ y.
Proof.
  induction 1 as [| x l Hsorted IH Hall]; intros Hlast y' Hin;
    [inversion Hin |].
  destruct l as [| x' l'].
  - injection Hlast as <-. apply list_elem_of_singleton in Hin as ->. lia.
  - rewrite last_cons_cons in Hlast.
    apply elem_of_cons in Hin as [-> | Hin]; [| exact (IH Hlast y' Hin)].
    rewrite Forall_forall in Hall.
    apply Hall, last_Some_elem_of, Hlast.
Qed.

(** X3. On a constructed loader with at least one available year,
    [get_column_names()] with no year behaves exactly as
    [get_column_names(y)] for the largest available year [y] (the most
    recent one), whatever the file system is by then. *)
Theorem get_column_names_most_recent `{Pandas} (env0 env : Env) dir self :
  __init__ env0 dir = Ok self →
  available_years self ≠ [] →
  ∃ y, y ∈ available_years self
       ∧ (∀ y', y' ∈ available_years self → y' ≤ y)
       ∧ get_column_names env self None = get_column_names env self (Some y).
Proof.
  intros Hinit Hne.
  destruct (last (available_years self)) as [y |] eqn:Hlast;
    [| apply last_None in Hlast; contradiction].
  exists y. split; [apply last_Some_elem_of, Hlast |].
  split; [| apply get_column_names_default, Hlast].
  apply strongly_sorted_last; [| exact Hlast].
  rewrite (init_available_years _ _ _ Hinit).
  apply Sorted_StronglySorted; [apply _ |].
  apply available_years_sorted.
Qed.

(** X3 on the example directory. *)
Lemma get_column_names_most_recent_witness :
  ∃ y, y ∈ available_years Example.loader
       ∧ (∀ y', y' ∈ available_years Example.loader → y' ≤ y)
       ∧ get_column_names Example.env Example.loader None
         = get_column_names Example.env Example.loader (Some y).
Proof.
  apply (get_column_names_most_recent Example.env Example.env (Some "/data")).
  - vm_compute. reflexivity.
  - discriminate.
Defined.

(** ** The worker and the parallel path *)

Section ParallelOrder.
Context `{Pandas}.
Variable env : Env.

Lemma worker_outcome p year columns filter_func dtype content :
  file_content env p = Some content →
  outcome (_load_year_worker env p year columns filter_func dtype)
  = result_bind (read_csv content columns None dtype)
                (apply_filter filter_func).
Proof.
  intros Hc. unfold _load_year_worker.
  rewrite bind_print. cbn [outcome snd]. rewrite outcome_bind, outcome_lift.
  rewrite (pd_read_csv_found _ _ _ _ _ _ Hc).
  destruct (read_csv content columns None dtype) as [df | e]; [| reflexivity].
  cbn [result_bind]. rewrite outcome_bind, outcome_lift.
  destruct (apply_filter filter_func df) as [df' | e]; [| reflexivity].
  cbn [result_bind]. rewrite bind_print. reflexivity.
Qed.

Lemma worker_load_year self year columns filter_func dtype :
  is_Some (file_content env (year_path self year)) →
  outcome (_load_year_worker env (year_path self year) year columns
                             filter_func dtype)
  = outcome (load_year env self year columns filter_func None dtype).
Proof.
  intros [content Hc].
  rewrite (worker_outcome _ _ _ _ _ _ Hc).
  rewrite (load_year_outcome env _ _ _ _ _ _ _ Hc). reflexivity.
Qed.

(** X4. The worker of the parallel path and [load_year] are two copies
    of the same steps: for a year whose file exists, the worker run on
    the path [_get_file_path] resolves returns exactly what [load_year]
    returns for that year with no row cap, table or exception alike. *)
Theorem worker_agrees_with_load_year self year columns filter_func dtype p :
  _get_file_path env self year = Ok p →
  outcome (_load_year_worker env p year columns filter_func dtype)
  = outcome (load_year env self year columns filter_func None dtype).
Proof.
  intros Hp.
  destruct (get_file_path_cases env self year)
    as [(content & Hc & Hok) | (_ & Hraise)]; [| congruence].
  rewrite Hok in Hp. injection Hp as <-.
  apply worker_load_year. eauto.
Qed.

Lemma collect_outcome completed dfs :
  outcome (collect completed dfs)
  = result_map (app dfs) (gather completed).
Proof.
  revert dfs. induction completed as [| fut rest IH]; intros dfs.
  - cbn. rewrite app_nil_r. reflexivity.
  - cbn [collect gather].
    destruct (fut_result fut) as [df | e]; cbn [result_bind].
    + rewrite IH. destruct (gather rest) as [dfs' | e]; cbn; [| reflexivity].
      rewrite <- app_assoc. reflexivity.
    + rewrite bind_print. reflexivity.
Qed.

Lemma as_completed_fmap {A} (f : A -> Future) (l : list A) sched :
  as_completed sched (map f l) = map f (omap (λ i, l !! i) sched).
Proof.
  unfold as_completed. change (map f l) with (f <$> l).
  induction sched as [| i sched IH]; [reflexivity |].
  simpl omap. rewrite list_lookup_fmap.
  destruct (l !! i); simpl; [f_equal |]; exact IH.
Qed.

Lemma gather_futures self columns filter_func dtype years :
  pickling_failure env filter_func = None →
  Forall (λ y, is_Some (file_content env (year_path self y))) years →
  gather (map (future_of env self columns filter_func dtype) years)
  = load_each env self years columns filter_func dtype.
Proof.
  intros Hpickle.
  induction 1 as [| year rest Hfile _ IH]; [reflexivity |].
  cbn [map gather load_each].
  rewrite (future_of_transferable env _ _ _ _ _ Hpickle).
  rewrite (worker_load_year _ _ _ _ _ Hfile), IH. reflexivity.
Qed.

Lemma omap_lookup_Forall {A} (P : A -> Prop) (l : list A) (sched : list nat) :
  Forall P l → Forall P (omap (λ i, l !! i) sched).
Proof.
  intros Hall. apply Forall_forall. intros x Hx.
  apply list_elem_of_omap in Hx as (i & _ & Hi).
  rewrite Forall_forall in Hall. apply Hall.
  apply list_elem_of_lookup. eauto.
Qed.

Lemma load_years_parallel_outcome self years columns filter_func dtype sched :
  pickling_failure env filter_func = None →
  (1 < length years)%nat →
  Forall (λ y, is_Some (file_content env (year_path self y))) years →
  outcome (load_years env self years columns filter_func true dtype sched)
  = load_each_then_concat env self (omap (λ i, years !! i) sched) columns
                          filter_func dtype.
Proof.
  intros Hpickle Hlen Hfiles. unfold load_years.
  replace (1 <? length years)%nat with true
    by (symmetry; apply Nat.ltb_lt; exact Hlen).
  cbn [andb]. rewrite bind_print. cbn [outcome snd].
  unfold _load_years_parallel.
  replace (Nat.min (length years) (Pos.to_nat (cpu_count env)) <=? 0)%nat
    with false by (symmetry; apply Nat.leb_gt; lia).
  rewrite (for_each_submit _ _ _ _ _ _ Hfiles).
  change (@pair (list string) (result (list Future)) [] (Ok ?a))
    with (lift (Ok a)).
  rewrite bind_lift_ok, outcome_bind, collect_outcome, as_completed_fmap.
  rewrite gather_futures
    by (try exact Hpickle; apply omap_lookup_Forall, Hfiles).
  unfold load_each_then_concat.
  destruct (load_each env self _ columns filter_func dtype) as [dfs | e];
    [| reflexivity].
  cbn [result_map result_bind app]. rewrite outcome_bind, outcome_lift.
  destruct (concat_ignore_index dfs) as [r | e]; [| reflexivity].
  cbn [result_bind]. rewrite bind_print. reflexivity.
Qed.

(** X5. With a filter function that can be pickled for the worker
    processes (or none), a parallel load of more than one year whose
    files are all found returns what the sequential load returns for the
    same years taken in the order in which the workers complete: the
    tables are concatenated in completion order, and a failure is that of
    the first failed worker in completion order. *)
Theorem parallel_is_sequential_in_completion_order self years columns
    filter_func dtype sched sched' :
  pickling_failure env filter_func = None →
  (1 < length years)%nat →
  Forall (λ y, is_Some (file_content env (year_path self y))) years →
  outcome (load_years env self years columns filter_func true dtype sched)
  = outcome (load_years env self (omap (λ i, years !! i) sched) columns
                        filter_func false dtype sched').
Proof.
  intros Hpickle Hlen Hfiles.
  rewrite load_years_parallel_outcome by assumption.
  rewrite load_years_sequential_outcome. reflexivity.
Qed.

(** X6. With a filter function that can be pickled for the worker
    processes (or none), when the workers complete in the order of
    submission a parallel load of years whose files are all found returns
    exactly what the sequential load of the same list returns. *)
Theorem parallel_in_submission_order self years columns filter_func dtype
    sched' :
  pickling_failure env filter_func = None →
  (1 < length years)%nat →
  Forall (λ y, is_Some (file_content env (year_path self y))) years →
  outcome (load_years env self years columns filter_func true dtype
                      (seq 0 (length years)))
  = outcome (load_years env self years columns filter_func false dtype
                        sched').
Proof.
  intros Hpickle Hlen Hfiles.
  rewrite load_years_parallel_outcome by assumption.
  rewrite load_years_sequential_outcome.
  pose proof (omap_lookup_seq [] years) as Hall.
  cbn [app length] in Hall. rewrite Hall. reflexivity.
Qed.

(** X18. With a filter function that cannot be pickled, a parallel load
    of more than one year whose files are all found never returns a
    table: no worker runs, and the operation reports, for the year whose
    job is the first to come back, the pickling error, and raises it. *)
Theorem parallel_untransferable_filter self years columns f dtype i sched
    y e :
  pickle_error env f = Some e →
  (1 < length years)%nat →
  Forall (λ y, is_Some (file_content env (year_path self y))) years →
  years !! i = Some y →
  load_years env self years columns (Some f) true dtype (i :: sched)
  = (["Loading " ++ Py.str_int (Z.of_nat (length years))
      ++ " years in parallel..."; error_report y e], Raise e).
Proof.
  intros Hpickle Hlen Hfiles Hy. unfold load_years.
  replace (1 <? length years)%nat with true
    by (symmetry; apply Nat.ltb_lt; exact Hlen).
  cbn [andb]. rewrite bind_print. unfold _load_years_parallel.
  replace (Nat.min (length years) (Pos.to_nat (cpu_count env)) <=? 0)%nat
    with false by (symmetry; apply Nat.leb_gt; lia).
  rewrite (for_each_submit _ _ _ _ _ _ Hfiles).
  change (@pair (list string) (result (list Future)) [] (Ok ?a))
    with (lift (Ok a)).
  rewrite bind_lift_ok, as_completed_fmap.
  simpl omap. rewrite Hy. cbn [map collect].
  unfold future_of, run_job, pickling_failure.
  cbn [mbind option_bind]. rewrite Hpickle. cbn [fut_result fut_year].
  rewrite (bind_print _ (raise e)). reflexivity.
Qed.
End ParallelOrder.

(** X4 for the year 2020 of the example directory. *)
Lemma worker_agrees_with_load_year_witness :
  outcome (_load_year_worker Example.env (year_path Example.loader 2020)
             2020 None None None)
  = outcome (load_year Example.env Example.loader 2020 None None None None).
Proof.
  apply (worker_agrees_with_load_year Example.env Example.loader 2020).
  vm_compute. reflexivity.
Defined.

(** X5 for 2020 and 2021 of the example directory, filtered on
    [a == "1"] by a function that pickles, 2021 completing first. *)
Lemma parallel_is_sequential_in_completion_order_witness :
  outcome (load_years Example.env Example.loader [2020; 2021] None
                      (Some (row_filter (Example.first_is "1")))
                      true None [1; 0]%nat)
  = outcome (load_years Example.env Example.loader [2021; 2020] None
                        (Some (row_filter (Example.first_is "1")))
                        false None []).
Proof.
  apply (parallel_is_sequential_in_completion_order Example.env
           Example.loader [2020; 2021] None
           (Some (row_filter (Example.first_is "1"))) None [1; 0]%nat []).
  - reflexivity.
  - cbn. lia.
  - repeat constructor; vm_compute; eauto.
Defined.

(** X6 for 2020 and 2021 of the example directory. *)
Lemma parallel_in_submission_order_witness :
  outcome (load_years Example.env Example.loader [2020; 2021] None None
                      true None [0; 1]%nat)
  = outcome (load_years Example.env Example.loader [2020; 2021] None None
                        false None []).
Proof.
  apply (parallel_in_submission_order Example.env Example.loader
           [2020; 2021] None None None []).
  - reflexivity.
  - cbn. lia.
  - repeat constructor; vm_compute; eauto.
Defined.

(** X18 for 2020 and 2021 of the example directory, with the filter
    [a == "1"] written as a lambda, 2021 coming back first. *)
Lemma parallel_untransferable_filter_witness :
  load_years Example.lambda_env Example.loader [2020; 2021] None
             (Some (row_filter (Example.first_is "1"))) true None
             [1; 0]%nat
  = (["Loading 2 years in parallel...";
      "Error loading year 2021: Can't pickle <function <lambda>>"],
     Raise Example.cannot_pickle).
Proof.
  apply (parallel_untransferable_filter Example.lambda_env Example.loader
           [2020; 2021] None (row_filter (Example.first_is "1")) None
           1%nat [0%nat] 2021 Example.cannot_pickle).
  - reflexivity.
  - cbn. lia.
  - repeat constructor; vm_compute; eauto.
  - reflexivity.
Defined.

(** ** Parallel and sequential loads return the same rows *)

Section SameRows.
Context `{Pandas}.
Variable env : Env.

(** Loading every year of a list succeeds exactly when loading each one
    does; the tables come in the order of the list. *)
Lemma load_each_ok_iff self years columns filter_func dtype dfs :
  load_each env self years columns filter_func dtype = Ok dfs
  ↔ Forall2 (λ year df,
               outcome (load_year env self year columns filter_func None
                                  dtype) = Ok df) years dfs.
Proof.
  split; [apply load_each_Forall2 |].
  induction 1 as [| year df rest dfs' Hdf _ IH]; [reflexivity |].
  cbn [load_each]. rewrite Hdf. cbn [result_bind]. rewrite IH. reflexivity.
Qed.

Lemma Forall2_permutation_l {A B} (R : A -> B -> Prop) (l l' : list A)
    (k : list B) :
  l ≡ₚ l' → Forall2 R l k → ∃ k', k ≡ₚ k' ∧ Forall2 R l' k'.
Proof.
  intros Hperm. revert k.
  induction Hperm as [| x l l' _ IH | x y l | l l' l'' _ IH1 _ IH2];
    intros k Hk.
  - exists k. split; [reflexivity | exact Hk].
  - inversion Hk as [| ? b ? k0 Hx Hrest]; subst.
    destruct (IH k0 Hrest) as (k' & Hperm' & Hk').
    exists (b :: k'). split; [constructor; exact Hperm' |].
    constructor; assumption.
  - inversion Hk as [| ? b ? k0 Hy Hrest]; subst.
    inversion Hrest as [| ? b' ? k1 Hx Hrest']; subst.
    exists (b' :: b :: k1). split; [apply Permutation_swap |].
    repeat constructor; assumption.
  - destruct (IH1 k Hk) as (k' & Hperm' & Hk').
    destruct (IH2 k' Hk') as (k'' & Hperm'' & Hk'').
    exists k''. split; [etrans; eassumption | exact Hk''].
Qed.

Lemma concat_values_permutation (dfs dfs' : list DataFrame) :
  dfs ≡ₚ dfs' →
  concat (map df_values dfs) ≡ₚ concat (map df_values dfs').
Proof.
  intros Hperm. rewrite <- !flat_map_concat_map.
  apply Permutation_flat_map, Hperm.
Qed.

(** X7. Let the years of a list of more than one year all have a file
    and load into tables with the same columns, and let the filter
    function, if there is one, be one that can be pickled for the worker
    processes.  Then for every completion order of the workers the
    parallel load returns a table when the sequential load does, with the
    same columns, the same fresh labels and the same rows up to their
    order.  The pandas side of it is [ConcatContract]. *)
Theorem parallel_same_rows_as_sequential self years columns filter_func
    dtype sched sched' names r_seq :
  ConcatContract →
  pickling_failure env filter_func = None →
  (1 < length years)%nat →
  sched ≡ₚ seq 0 (length years) →
  Forall (λ y, is_Some (file_content env (year_path self y))) years →
  (∀ y df, y ∈ years →
     outcome (load_year env self y columns filter_func None dtype) = Ok df →
     df_columns df = names) →
  outcome (load_years env self years columns filter_func false dtype sched')
  = Ok r_seq →
  ∃ r_par,
    outcome (load_years env self years columns filter_func true dtype sched)
    = Ok r_par
    ∧ df_columns r_par = df_columns r_seq
    ∧ df_labels r_par = df_labels r_seq
    ∧ df_values r_par ≡ₚ df_values r_seq.
Proof.
  intros (_ & _ & Hsame) Hpickle Hlen Hsched Hfiles Hcols Hseq.
  rewrite load_years_sequential_outcome in Hseq.
  rewrite (load_years_parallel_outcome env) by assumption.
  unfold load_each_then_concat in *.
  destruct (load_each env self years columns filter_func dtype)
    as [dfs | e] eqn:Hdfs; [| discriminate].
  cbn [result_bind] in Hseq.
  apply load_each_ok_iff in Hdfs.
  assert (omap (λ i, years !! i) sched ≡ₚ years) as Hperm.
  { rewrite Hsched. pose proof (omap_lookup_seq [] years) as Hall.
    cbn [app length] in Hall. rewrite Hall. reflexivity. }
  destruct (Forall2_permutation_l _ _ _ _ (symmetry Hperm) Hdfs)
    as (dfs' & Hdfs_perm & Hdfs').
  apply load_each_ok_iff in Hdfs'. rewrite Hdfs'. cbn [result_bind].
  assert (Forall (λ d, df_columns d = names) dfs) as Hnames.
  { apply Forall_forall. intros d Hd.
    apply list_elem_of_lookup in Hd as [i Hi].
    destruct (Forall2_lookup_r _ _ _ _ _ Hdfs Hi) as (y & Hy & Hload).
    apply (Hcols y d); [| exact Hload].
    apply list_elem_of_lookup. eauto. }
  assert (Forall (λ d, df_columns d = names) dfs') as Hnames'
    by (rewrite <- Hdfs_perm; exact Hnames).
  assert (dfs ≠ []) as Hne.
  { intros ->. apply Forall2_length in Hdfs. cbn in Hdfs. lia. }
  assert (dfs' ≠ []) as Hne'.
  { intros ->. apply Permutation_nil_r in Hdfs_perm. contradiction. }
  rewrite (Hsame dfs names Hne Hnames) in Hseq. injection Hseq as <-.
  rewrite (Hsame dfs' names Hne' Hnames').
  eexists. split; [reflexivity |]. split; [reflexivity |].
  pose proof (concat_values_permutation _ _ Hdfs_perm) as Hvals.
  split.
  - unfold df_labels. cbn [df_rows]. rewrite !relabel_labels.
    rewrite (Permutation_length Hvals). reflexivity.
  - unfold df_values at 1 3. cbn [df_rows]. rewrite !relabel_values.
    symmetry. exact Hvals.
Qed.
End SameRows.

(** X7 for 2020 and 2021 of the example directory, 2021 completing
    first. *)
Lemma parallel_same_rows_as_sequential_witness :
  ∃ r_par,
    outcome (load_years Example.env Example.loader [2020; 2021] None None
                        true None [1; 0]%nat) = Ok r_par
    ∧ df_columns r_par = ["a"; "b"]
    ∧ df_labels r_par = [0; 1; 2; 3]
    ∧ df_values r_par ≡ₚ [[CStr "1"; CStr "2"]; [CStr "3"; CNaN];
                          [CStr "5"; CStr "6"]; [CStr "7"; CStr "8"]].
Proof.
  apply (parallel_same_rows_as_sequential Example.env Example.loader
           [2020; 2021] None None None [1; 0]%nat [] ["a"; "b"]
           (mkDataFrame ["a"; "b"]
              [(0, [CStr "1"; CStr "2"]); (1, [CStr "3"; CNaN]);
               (2, [CStr "5"; CStr "6"]); (3, [CStr "7"; CStr "8"])])).
  - exact MiniPandasFacts.mini_concat_contract.
  - reflexivity.
  - cbn. lia.
  - apply Permutation_swap.
  - repeat constructor; vm_compute; eauto.
  - intros y df Hy Hload.
    apply elem_of_cons in Hy as [-> | Hy];
      [| apply list_elem_of_singleton in Hy as ->];
      vm_compute in Hload; injection Hload as <-; reflexivity.
  - vm_compute. reflexivity.
Defined.

(** ** One year, or none, in a multi-year load *)

Section FewYears.
Context `{Pandas}.

(** X8. [load_years] on a list of one year never takes the parallel
    path: for either setting of [parallel] it returns what [load_year]
    returns for that year, with the index reset to [0, 1, ...] (so after
    a row filter the labels differ from those [load_year] keeps), and it
    raises what [load_year] raises.  The pandas side of it is
    [ConcatContract]. *)
Theorem load_years_single_resets_index (env : Env) self (year : Z) columns
    filter_func parallel dtype sched :
  ConcatContract →
  outcome (load_years env self [year] columns filter_func parallel dtype
                      sched)
  = result_map (λ df, mkDataFrame (df_columns df) (relabel (df_values df)))
      (outcome (load_year env self year columns filter_func None dtype)).
Proof.
  intros (_ & _ & Hsame). unfold load_years.
  replace (parallel && (1 <? length [year])%nat) with false
    by (destruct parallel; reflexivity).
  rewrite bind_print. cbn [outcome snd].
  rewrite outcome_bind, for_each_load_year. cbn [load_each].
  destruct (outcome (load_year env self year columns filter_func None dtype))
    as [df | e]; [| reflexivity].
  cbn [result_bind result_map]. rewrite outcome_bind, outcome_lift.
  rewrite (Hsame [df] (df_columns df)) by (repeat constructor; discriminate).
  cbn [result_bind map concat]. rewrite app_nil_r, bind_print. reflexivity.
Qed.

(** X9. With no year to load there is nothing to concatenate:
    [load_years([])] raises the [ValueError] of [pd.concat] for either
    setting of [parallel], and so do [load_all] and [quick_load('all')]
    on a directory in which no file name matches the year-file pattern;
    none of them returns an empty table.  The pandas side of it is
    [ConcatContract]. *)
Theorem nothing_to_load (env0 env : Env) dir self columns filter_func
    parallel dtype sched :
  ConcatContract →
  __init__ env0 dir = Ok self →
  glob_year_files env0 (data_dir self) = [] →
  let e := Exn ValueError "No objects to concatenate" in
  outcome (load_years env self [] columns filter_func parallel dtype sched)
  = Raise e
  ∧ outcome (load_all env self columns filter_func parallel dtype sched)
    = Raise e
  ∧ outcome (quick_load env0 (YearsStr "all") columns filter_func dir sched)
    = Raise e.
Proof.
  intros Hcontract Hinit Hglob e.
  assert (available_years self = []) as Hnone.
  { rewrite (init_available_years _ _ _ Hinit).
    unfold _get_available_years. rewrite Hglob. reflexivity. }
  split; [apply load_years_nil, Hcontract |].
  split.
  - unfold load_all. rewrite Hnone. apply load_years_nil, Hcontract.
  - unfold quick_load. rewrite Hinit, bind_lift_ok. cbn [is_all String.eqb].
    unfold load_all. rewrite Hnone. apply load_years_nil, Hcontract.
Qed.

(** X10. [quick_load] constructs the loader before it looks at its
    [years] argument: when the data directory does not exist it prints
    nothing and raises the [FileNotFoundError] of the constructor for
    every argument, an unsupported one included. *)
Theorem quick_load_missing_directory (env : Env) years columns filter_func
    dir sched e :
  __init__ env dir = Raise e →
  quick_load env years columns filter_func dir sched = ([], Raise e)
  ∧ exc_type e = FileNotFoundError.
Proof.
  intros Hinit. split.
  - unfold quick_load. rewrite Hinit. reflexivity.
  - unfold __init__ in Hinit. destruct (negb _); [| discriminate].
    injection Hinit as <-. reflexivity.
Qed.
End FewYears.

(** X8 for the year 2020 of the example directory under a filter. *)
Lemma load_years_single_resets_index_witness :
  outcome (load_years Example.env Example.loader [2020] None
                      (Some (row_filter (Example.first_is "5"))) true None [])
  = Ok (mkDataFrame ["a"; "b"] [(0, [CStr "5"; CStr "6"])])
  ∧ outcome (load_year Example.env Example.loader 2020 None
                       (Some (row_filter (Example.first_is "5"))) None None)
    = Ok (mkDataFrame ["a"; "b"] [(2, [CStr "5"; CStr "6"])]).
Proof.
  split.
  - rewrite (load_years_single_resets_index Example.env Example.loader 2020
               None (Some (row_filter (Example.first_is "5"))) true None []
               MiniPandasFacts.mini_concat_contract).
    vm_compute. reflexivity.
  - vm_compute. reflexivity.
Defined.

(** X9 on a directory that holds no year file. *)
Lemma nothing_to_load_witness :
  outcome (load_all Example.empty_env (mkLoader "/data" []) None None true
                    None [])
  = Raise (Exn ValueError "No objects to concatenate").
Proof.
  apply (nothing_to_load Example.empty_env Example.empty_env (Some "/data")
           (mkLoader "/data" []) None None true None []).
  - exact MiniPandasFacts.mini_concat_contract.
  - vm_compute. reflexivity.
  - vm_compute. reflexivity.
Defined.

(** X10 for a float argument and a directory that does not exist. *)
Lemma quick_load_missing_directory_witness :
  quick_load Example.env (YearsOther "float") None None (Some "/nowhere") []
  = ([], Raise (Exn FileNotFoundError "Data directory not found: /nowhere")).
Proof.
  apply (quick_load_missing_directory Example.env (YearsOther "float") None
           None (Some "/nowhere") []).
  vm_compute. reflexivity.
Defined.

(** ** The generator, call by call *)

Section Generator.
Context `{Pandas}.
Variable env : Env.

Lemma nexts_finished n :
  nexts env n GenFinished = (replicate n (Ok None), GenFinished).
Proof.
  induction n as [| n IH]; [reflexivity |].
  cbn [nexts gen_next]. rewrite IH. reflexivity.
Qed.

Lemma nexts_running pending failure n :
  nexts env (length pending + S n) (GenRunning pending failure)
  = ((map (λ c, Ok (Some c)) pending
      ++ match failure with Some e => Raise e | None => Ok None end
         :: replicate n (Ok None))%list,
     GenFinished).
Proof.
  induction pending as [| chunk rest IH].
  - cbn [length Nat.add nexts gen_next gen_resume map app].
    destruct failure; cbn; rewrite nexts_finished; reflexivity.
  - cbn [length Nat.add nexts gen_next gen_resume].
    cbn [lift]. rewrite IH. reflexivity.
Qed.

(** X11. The generator of [iter_year_chunks] for a year whose file
    exists, call by call: when pandas opens the chunked read, the
    successive calls of [next] return its chunks in order, one per call;
    the call after the last chunk raises the exception that ended the
    read, if there is one, and is [StopIteration] otherwise; every later
    call is [StopIteration].  When pandas fails to open the read, the
    first call raises that error and every later call is
    [StopIteration]. *)
Theorem generator_call_by_call self year chunksize columns dtype content n :
  file_content env (year_path self year) = Some content →
  let g := iter_year_chunks self year chunksize columns dtype in
  match read_csv_chunked content columns chunksize dtype with
  | Ok (chunks, failure) =>
      nexts env (length chunks + S n) g
      = ((map (λ c, Ok (Some c)) chunks
          ++ match failure with Some e => Raise e | None => Ok None end
             :: replicate n (Ok None))%list,
         GenFinished)
  | Raise e =>
      nexts env (S n) g = (Raise e :: replicate n (Ok None), GenFinished)
  end.
Proof.
  intros Hc g. subst g. unfold iter_year_chunks.
  destruct (read_csv_chunked content columns chunksize dtype)
    as [[chunks failure] | e] eqn:Hread.
  - pose proof (nexts_running chunks failure n) as Hrun.
    destruct chunks as [| chunk rest].
    + cbn [length Nat.add nexts gen_next] in *.
      rewrite (get_file_path_found env _ _ _ Hc).
      unfold pd_read_csv_chunked. rewrite Hc, Hread.
      cbn [gen_resume gen_next lift] in *.
      destruct failure; cbn [outcome snd] in *; rewrite nexts_finished;
        reflexivity.
    + cbn [length Nat.add nexts gen_next] in *.
      rewrite (get_file_path_found env _ _ _ Hc).
      unfold pd_read_csv_chunked. rewrite Hc, Hread.
      cbn [gen_resume lift outcome snd] in *.
      destruct (nexts env (length rest + S n) (GenRunning rest failure))
        as [rs g'].
      injection Hrun as -> ->. reflexivity.
  - cbn [nexts gen_next].
    rewrite (get_file_path_found env _ _ _ Hc).
    unfold pd_read_csv_chunked. rewrite Hc, Hread.
    rewrite nexts_finished. reflexivity.
Qed.
End Generator.

(** X11 for the year 2020 of the example directory in chunks of two:
    two chunks, then [StopIteration] twice. *)
Lemma generator_call_by_call_witness :
  nexts Example.env 4 (iter_year_chunks Example.loader 2020 2 None None)
  = ([Ok (Some (mkDataFrame ["a"; "b"]
                  [(0, [CStr "1"; CStr "2"]); (1, [CStr "3"; CNaN])]));
      Ok (Some (mkDataFrame ["a"; "b"] [(2, [CStr "5"; CStr "6"])]));
      Ok None; Ok None], GenFinished).
Proof.
  exact (generator_call_by_call Example.env Example.loader 2020 2 None None
           Example.csv_2020 1 eq_refl).
Defined.

(** ** The sequential loop stops at the first failure *)

Lemma for_each_stops {A B} (f : A -> Comp B) (pre : list A) (x : A)
    (post : list A) (ys : list B) (e : exn) :
  outcome (for_each f pre) = Ok ys →
  outcome (f x) = Raise e →
  for_each f (pre ++ x :: post)
  = ((stdout (for_each f pre) ++ stdout (f x))%list, Raise e).
Proof.
  revert ys. induction pre as [| a pre IH]; intros ys Hpre Hx.
  - cbn [app for_each]. destruct (f x) as [out r]. cbn in Hx. subst r.
    reflexivity.
  - cbn [app for_each] in *.
    destruct (f a) as [oa [ya | ea]]; [| discriminate].
    destruct (for_each f pre) as [op [ys' | e']] eqn:Hfe; [| discriminate].
    rewrite (IH ys' eq_refl Hx).
    cbn [bind ret stdout fst]. rewrite !app_nil_r, app_assoc. reflexivity.
Qed.

Section SequentialFailure.
Context `{Pandas}.
Variable env : Env.

(** X12. In a sequential load, when the years before some year of the
    list all load and that year's load raises, [load_years] raises that
    exception and has printed its opening line, what the loads before
    printed and what the failed load printed: no year after the failing
    one is resolved or read, and nothing is concatenated. *)
Theorem sequential_stops_at_first_failure self pre (year : Z) post columns
    filter_func dtype sched dfs e :
  load_each env self pre columns filter_func dtype = Ok dfs →
  outcome (load_year env self year columns filter_func None dtype) = Raise e →
  let load := λ y, load_year env self y columns filter_func None dtype in
  load_years env self (pre ++ year :: post) columns filter_func false dtype
             sched
  = (("Loading "
      ++ Py.str_int (Z.of_nat (length (pre ++ year :: post)%list))
      ++ " years sequentially...")
     :: (stdout (for_each load pre) ++ stdout (load year))%list,
     Raise e).
Proof.
  intros Hpre Hyear load. unfold load_years. cbn [andb].
  rewrite bind_print.
  rewrite <- for_each_load_year in Hpre.
  fold load. rewrite (for_each_stops load pre year post dfs e Hpre Hyear).
  reflexivity.
Qed.
End SequentialFailure.

(** X12 on the example directory: 2020 loads, the empty file of 2019
    does not parse, 2021 is never touched. *)
Lemma sequential_stops_at_first_failure_witness :
  load_years Example.env Example.loader [2020; 2019; 2021] None None false
             None []
  = (["Loading 3 years sequentially...";
      "Loading 2020 from cleaned_2020_all.csv...";
      "  Loaded 3 rows, 2 columns";
      "Loading 2019 from cleaned_2019_all.csv..."],
     Raise (Exn (LibraryError "EmptyDataError")
                "No columns to parse from file")).
Proof.
  refine (sequential_stops_at_first_failure Example.env Example.loader
            [2020] 2019 [2021] None None None []
            [mkDataFrame ["a"; "b"]
               [(0, [CStr "1"; CStr "2"]); (1, [CStr "3"; CNaN]);
                (2, [CStr "5"; CStr "6"])]]
            (Exn (LibraryError "EmptyDataError")
                 "No columns to parse from file") _ _).
  - vm_compute. reflexivity.
  - vm_compute. reflexivity.
Defined.

(** ** File size and stale years *)

(** X13. The size [get_year_info] reports, in hundredths of a megabyte,
    never decreases when the file grows, and it is zero exactly for the
    files of at most 5242 bytes: a smaller file is reported as 0.0 MB. *)
Theorem file_size_mb_monotone (size size' : Z) :
  0 ≤ size ≤ size' →
  file_size_mb_hundredths size ≤ file_size_mb_hundredths size'
  ∧ (file_size_mb_hundredths size = 0 ↔ size ≤ 5242).
Proof.
  intros Hsize. unfold file_size_mb_hundredths, round_half_even.
  change (1024 * 1024) with 1048576.
  pose proof (Z.div_mod (100 * size) 1048576 ltac:(lia)) as Hdm.
  pose proof (Z.mod_pos_bound (100 * size) 1048576 ltac:(lia)) as Hr.
  pose proof (Z.div_mod (100 * size') 1048576 ltac:(lia)) as Hdm'.
  pose proof (Z.mod_pos_bound (100 * size') 1048576 ltac:(lia)) as Hr'.
  set (q := 100 * size / 1048576) in *.
  set (r := (100 * size) mod 1048576) in *.
  set (q' := 100 * size' / 1048576) in *.
  set (r' := (100 * size') mod 1048576) in *.
  assert (0 ≤ q) by (subst q; apply Z.div_pos; lia).
  assert (q ≤ q') by (subst q q'; apply Z.div_le_mono; lia).
  split.
  - destruct (Z.ltb_spec (2 * r) 1048576);
      destruct (Z.ltb_spec (2 * r') 1048576);
      destruct (Z.ltb_spec 1048576 (2 * r));
      destruct (Z.ltb_spec 1048576 (2 * r'));
      destruct (Z.even q) eqn:Hq; destruct (Z.even q') eqn:Hq';
      try lia;
      (destruct (Z.eq_dec q q') as [Heq | Hne];
       [rewrite Heq in *; try congruence; lia | lia]).
  - destruct (Z.ltb_spec (2 * r) 1048576);
      [| destruct (Z.ltb_spec 1048576 (2 * r));
         [| destruct (Z.even q) eqn:Hq]]; lia.
Qed.

(** X13 around the threshold. *)
Lemma file_size_mb_monotone_witness :
  file_size_mb_hundredths 5242 ≤ file_size_mb_hundredths 5243
  ∧ (file_size_mb_hundredths 5242 = 0 ↔ 5242 ≤ 5242).
Proof. apply (file_size_mb_monotone 5242 5243). lia. Defined.

Section Stale.
Context `{Pandas}.

(** X14. The list of available years is computed once, at construction.
    When the file of a year that existed then is gone by the time of a
    load, [load_year] raises the [FileNotFoundError] for that year with a
    message that still lists the year among the available ones. *)
Theorem stale_available_years (env0 env : Env) dir self (year : Z) columns
    filter_func nrows dtype :
  __init__ env0 dir = Ok self →
  is_Some (file_content env0 (year_path self year)) →
  missing env self year →
  year ∈ available_years self
  ∧ load_year env self year columns filter_func nrows dtype
    = ([], Raise (Exn FileNotFoundError
                      ("No data file found for year " ++ Py.str_int year
                       ++ ". " ++ "Available years: "
                       ++ Py.repr_int_list (available_years self)))).
Proof.
  intros Hinit Hthen Hnow.
  split; [exact (year_with_file_is_available env0 dir self year Hinit Hthen) |].
  apply load_year_missing, Hnow.
Qed.
End Stale.

(** X14 on the example directory: the loader is constructed while the
    2021 file is there and used on a directory that has lost it. *)
Lemma stale_available_years_witness :
  2021 ∈ available_years Example.loader
  ∧ load_year Example.empty_env Example.loader 2021 None None None None
    = ([], Raise (Exn FileNotFoundError
                      ("No data file found for year " ++ Py.str_int 2021
                       ++ ". " ++ "Available years: "
                       ++ Py.repr_int_list (available_years Example.loader)))).
Proof.
  apply (stale_available_years Example.env Example.empty_env (Some "/data")
           Example.loader 2021 None None None None).
  - vm_compute. reflexivity.
  - vm_compute. eauto.
  - vm_compute. reflexivity.
Defined.

(** ** Year metadata: what can go wrong, and bounds *)

Lemma count_lines_nonempty (in_line : bool) (c : ascii) (s : list ascii) :
  (1 ≤ count_lines in_line (c :: s))%nat.
Proof.
  revert in_line c. induction s as [| c' s IH]; intros in_line c.
  - cbn. destruct (Ascii.eqb c "010"%char), (Ascii.eqb c "013"%char); lia.
  - cbn [count_lines].
    destruct (Ascii.eqb c "010"%char); [lia |].
    destruct (Ascii.eqb c "013"%char).
    + destruct (Ascii.eqb c' "010"%char); lia.
    + apply (IH true c').
Qed.

Section MetadataEdges.
Context `{Pandas}.
Variable env : Env.

(** X15. For a year whose file exists: when the bytes of the file do not
    decode as text in the encoding of the locale, [get_year_info] raises
    a [UnicodeDecodeError] from counting the lines, before any header is
    read; when they decode, it returns a record exactly when the
    header-only read of [get_column_names] succeeds, and when that read
    raises, [get_year_info] raises the same exception and returns no
    partial record, although size and line count are computed before.
    In a record it returns, the estimated row count is at least -1, and
    at least 0 unless the file is empty, and the size is not negative. *)
Theorem get_year_info_outcomes self (year : Z) content :
  file_content env (year_path self year) = Some content →
  if decodes (encoding env) content then
    match read_csv content None (Some 0) None with
    | Raise e => get_year_info env self year = ([], Raise e)
    | Ok header =>
        ∃ info, get_year_info env self year = ([], Ok info)
                ∧ -1 ≤ info_estimated_rows info
                ∧ (content ≠ EmptyString → 0 ≤ info_estimated_rows info)
                ∧ 0 ≤ info_file_size_mb info
    end
  else
    ∃ msg, get_year_info env self year
           = ([], Raise (Exn UnicodeDecodeError msg)).
Proof.
  intros Hc.
  destruct (decodes (encoding env) content) eqn:Hdec;
    [| exact (get_year_info_undecoded env self year content Hc Hdec)].
  pose proof (get_column_names_year env self year content Hc) as Hcols.
  rewrite (get_year_info_decoded env _ _ _ Hc Hdec), Hcols.
  destruct (read_csv content None (Some 0) None) as [header | e];
    [| reflexivity].
  eexists. split; [reflexivity |]. cbn [info_estimated_rows info_file_size_mb].
  split; [lia |]. split.
  - intros Hne. unfold line_count.
    destruct content as [| c rest]; [congruence |].
    cbn [list_ascii_of_string].
    pose proof (count_lines_nonempty false c (list_ascii_of_string rest)).
    lia.
  - unfold file_size_mb_hundredths, round_half_even, st_size.
    change (1024 * 1024) with 1048576.
    assert (0 ≤ 100 * Z.of_nat (String.length content) / 1048576)
      by (apply Z.div_pos; lia).
    destruct (_ <? _); [lia |]. destruct (_ <? _); [lia |].
    destruct (Z.even _); lia.
Qed.
End MetadataEdges.

(** X15 on a 2020 file with a byte that is not UTF-8 in its second
    line: the header can be read, and the call raises all the same. *)
Lemma get_year_info_outcomes_witness :
  is_ok (outcome (get_column_names Example.bad_byte_env
                    (mkLoader "/data" [2020]) (Some 2020))) = true
  ∧ ∃ msg, get_year_info Example.bad_byte_env (mkLoader "/data" [2020]) 2020
           = ([], Raise (Exn UnicodeDecodeError msg)).
Proof.
  split; [vm_compute; reflexivity |].
  exact (get_year_info_outcomes Example.bad_byte_env
           (mkLoader "/data" [2020]) 2020 Example.csv_bad_byte eq_refl).
Defined.

(** ** The scan accepts more names than the resolution builds *)

(** A name with further fields between the year and [_all.csv]. *)
Lemma variant_file_scanned (year : Z) (extra : string) :
  let name := "cleaned_" ++ Py.str_int year ++ "_" ++ extra ++ "_all.csv" in
  glob_match name = true
  ∧ (∀ env, year_of_file env name = Some year)
  ∧ name ≠ year_file_name year.
Proof.
  intros name.
  assert (∀ a b c : string,
            String.append a (String.append b c)
            = String.append (String.append a b) c) as Hassoc.
  { intros a b c. induction a as [| x a IH]; [reflexivity |].
    change (String x (String.append a (String.append b c))
            = String x (String.append (String.append a b) c)).
    rewrite IH. reflexivity. }
  split; [| split].
  - unfold glob_match, name. rewrite prefix_append.
    rewrite !Hassoc, ends_with_append, <- !Hassoc.
    rewrite string_length_chars, !chars_app, !length_app.
    cbn [andb]. apply Nat.leb_le. cbn [list_ascii_of_string length]. lia.
  - intros env. unfold year_of_file.
    set (s := list_ascii_of_string (Py.str_int year)).
    rewrite (stem_csv name
               (list_ascii_of_string "cleaned_" ++ s
                ++ "_"%char :: list_ascii_of_string extra
                ++ list_ascii_of_string "_all")%list).
    + unfold Py.split. rewrite list_ascii_of_string_of_list_ascii.
      cbn [list_ascii_of_string app Py.split_chars Ascii.eqb Bool.eqb rev].
      rewrite (split_chars_field "_"%char s [] _
                 (PyFacts.str_int_no_underscore year)).
      cbn [rev app map lookup list_lookup].
      subst s. rewrite string_of_list_ascii_of_string. cbn [mbind option_bind].
      apply PyFacts.int_of_str_str_int.
    + unfold name. rewrite !chars_app. subst s.
      rewrite <- !app_assoc. cbn [list_ascii_of_string app].
      rewrite <- !app_assoc. reflexivity.
    + discriminate.
  - unfold name, year_file_name. intros Heq.
    apply (f_equal String.length) in Heq.
    rewrite !string_length_chars, !chars_app, !length_app in Heq.
    cbn [list_ascii_of_string length] in Heq. lia.
Qed.

Section LooseScan.
Context `{Pandas}.

(** X16. The directory scan accepts names that file resolution never
    builds.  If the directory holds a file [cleaned_<year>_<extra>_all.csv]
    (any further text between the year and [_all.csv]) and no file
    [cleaned_<year>_all.csv], the constructed loader lists the year as
    available, and yet on that same directory [load_year] for the year
    raises the [FileNotFoundError]. *)
Theorem listed_year_without_file (env : Env) dir self (year : Z)
    (extra : string) columns filter_func nrows dtype :
  __init__ env dir = Ok self →
  is_Some (file_content env
             (mkPath (data_dir self)
                     ("cleaned_" ++ Py.str_int year ++ "_" ++ extra
                      ++ "_all.csv"))) →
  missing env self year →
  year ∈ available_years self
  ∧ load_year env self year columns filter_func nrows dtype
    = ([], Raise (no_data_file self year)).
Proof.
  intros Hinit [content Hc] Hmiss.
  split; [| apply load_year_missing, Hmiss].
  rewrite (init_available_years _ _ _ Hinit).
  unfold file_content in Hc. cbn [p_dir p_name] in Hc.
  destruct (fs env !! data_dir self) as [files |] eqn:Hd; [| discriminate].
  cbn in Hc.
  apply (available_years_elem env (data_dir self) files year Hd).
  destruct (variant_file_scanned year extra) as (Hglob & Hyear & _).
  eexists. split; [eexists; exact Hc |].
  split; [exact Hglob | apply Hyear].
Qed.
End LooseScan.

(** X16 on a directory whose only year file is
    [cleaned_2018_v2_all.csv]. *)
Lemma listed_year_without_file_witness :
  2018 ∈ available_years (mkLoader "/data" [2018])
  ∧ load_year Example.variant_env (mkLoader "/data" [2018]) 2018 None None
              None None
    = ([], Raise (no_data_file (mkLoader "/data" [2018]) 2018)).
Proof.
  apply (listed_year_without_file Example.variant_env (Some "/data")
           (mkLoader "/data" [2018]) 2018 "v2" None None None None).
  - vm_compute. reflexivity.
  - vm_compute. eauto.
  - vm_compute. reflexivity.
Defined.

(** ** Sampling a negative number of rows *)

Lemma mini_sample_rejects_negative : SampleRejectsNegative.
Proof.
  intros df n seed Hn. cbn. unfold MiniPandas.mini_sample.
  destruct (Z.ltb_spec n 0); [eauto | lia].
Qed.

Section NegativeSample.
Context `{Pandas}.

(** X17. [sample_year] does not guard against a negative [n]: the test
    [len(df) > n] then holds for every table, also an empty one, so the
    table is never returned as it is; the request goes to [df.sample],
    and the call raises its [ValueError] after the first progress line.
    The pandas side of it is [SampleRejectsNegative]. *)
Theorem sample_year_negative (env : Env) self (year n : Z) columns content
    df :
  SampleRejectsNegative →
  file_content env (year_path self year) = Some content →
  read_csv content columns None None = Ok df →
  n < 0 →
  ∃ msg,
    sample_year env self year n columns
    = (["Sampling " ++ Py.str_int n ++ " rows from " ++ Py.str_int year
        ++ "..."], Raise (Exn ValueError msg))
    ∧ df_sample df n 42 = Raise (Exn ValueError msg).
Proof.
  intros Hcontract Hc Hread Hn.
  destruct (Hcontract df n 42 Hn) as [msg Hmsg].
  exists msg. split; [| exact Hmsg].
  unfold sample_year.
  rewrite (get_file_path_found env _ _ _ Hc), bind_lift_ok, bind_print.
  rewrite (pd_read_csv_found _ _ _ _ _ _ Hc), Hread, bind_lift_ok.
  destruct (Z.ltb_spec n (Z.of_nat (df_len df))); [| lia].
  rewrite Hmsg. reflexivity.
Qed.
End NegativeSample.

(** X17 for the 2020 file of the example directory and [n = -1]. *)
Lemma sample_year_negative_witness :
  ∃ msg,
    sample_year Example.env Example.loader 2020 (-1) None
    = (["Sampling " ++ Py.str_int (-1) ++ " rows from " ++ Py.str_int 2020
        ++ "..."], Raise (Exn ValueError msg))
    ∧ df_sample (mkDataFrame ["a"; "b"]
                   [(0, [CStr "1"; CStr "2"]); (1, [CStr "3"; CNaN]);
                    (2, [CStr "5"; CStr "6"])]) (-1) 42
      = Raise (Exn ValueError msg).
Proof.
  apply (sample_year_negative Example.env Example.loader 2020 (-1) None
           Example.csv_2020).
  - exact mini_sample_rejects_negative.
  - vm_compute. reflexivity.
  - vm_compute. reflexivity.
  - lia.
Defined.
